(** * ROI calculator configuration tools: a shallow embedding

    The development follows the two programs of the repository:

    - [roi_config_mcp.py], the Config Gateway: four tools ([roi_config_read],
      [roi_config_research], [roi_config_apply], [roi_config_status]) over
      one configured file;
    - [weekly_update.py], the Batch Updater: [get_claude_updates],
      [increment_version], [apply_updates] and [main].

    Python values are modelled as they are at run time: a [str] is a Rocq
    [string] holding the UTF-8 encoding of its characters, the result of
    [json.loads] is a tree of [json] values whose objects keep their keys in
    insertion order, an exception is a value of [exn], and code that can
    raise returns a [result].  Code that touches the file system, the clock
    or the standard output runs in the monad [M] over a [world].

    What is taken for granted: one program runs at a time, so a file stays
    as it is between two accesses of a call; the file system is a map from
    paths to files and directories, and opening a path fails only when it
    is missing or a directory; integers are unbounded and the interpreter's
    limit on the length of a numeral is off; the default encoding of
    [open] in the Batch Updater is UTF-8; the libraries the programs call
    ([json], [hashlib], [anthropic]) are parameters, gathered in [PyEnv]. *)

From Stdlib Require Import ZArith NArith List Ascii String Bool Lia.
From Stdlib Require Import Decimal DecimalString DecimalPos DecimalN DecimalZ.
From Stdlib Require Import SpecFloat.
From stdpp Require Import gmap strings.

Open Scope Z_scope.

#[local] Set Warnings "-register-all".

(** ** Python strings *)

Module PyStr.

(** [sub in s] on two strings. *)
Fixpoint contains (sub s : string) : bool :=
  String.prefix sub s ||
  match s with
  | EmptyString => false
  | String _ rest => contains sub rest
  end.

(** [s.split(sep)] for a non-empty separator: the pieces between successive
    non-overlapping occurrences of [sep], scanned from the left.  [skip]
    counts the characters of a separator that are still to be passed over,
    [piece] is the piece read so far. *)
Fixpoint split_go (sep : string) (skip : nat) (piece s : string) : list string :=
  match s with
  | EmptyString => [piece]
  | String c rest =>
      match skip with
      | S k => split_go sep k piece rest
      | O =>
          if String.prefix sep s
          then piece :: split_go sep (String.length sep - 1) "" rest
          else split_go sep 0 (piece +:+ String c "") rest
      end
  end.

Definition split (sep s : string) : list string := split_go sep 0 "" s.

(** [sep.join(l)]. *)
Fixpoint join (sep : string) (l : list string) : string :=
  match l with
  | [] => ""
  | [x] => x
  | x :: rest => x +:+ sep +:+ join sep rest
  end.

Definition is_ascii (c : ascii) : bool := (nat_of_ascii c <? 128)%nat.

Definition all_ascii (s : string) : bool :=
  forallb is_ascii (list_ascii_of_string s).

Definition of_bytes (codes : list nat) : string :=
  string_of_list_ascii (List.map ascii_of_nat codes).

(** The characters [str.strip()] removes, as UTF-8 byte sequences: the ASCII
    ones (U+0009..U+000D, U+001C..U+001F, U+0020) and the other characters
    for which [str.isspace] holds. *)
Definition whitespace : list string :=
  List.map of_bytes
    [ [9]; [10]; [11]; [12]; [13]; [28]; [29]; [30]; [31]; [32];
      [194; 133]; [194; 160]; [225; 154; 128];
      [226; 128; 128]; [226; 128; 129]; [226; 128; 130]; [226; 128; 131];
      [226; 128; 132]; [226; 128; 133]; [226; 128; 134]; [226; 128; 135];
      [226; 128; 136]; [226; 128; 137]; [226; 128; 138]; [226; 128; 168];
      [226; 128; 169]; [226; 128; 175]; [226; 129; 159]; [227; 128; 128] ]%nat.

Fixpoint drop (n : nat) (s : string) : string :=
  match n, s with
  | S k, String _ rest => drop k rest
  | _, _ => s
  end.

Fixpoint rev_acc (s acc : string) : string :=
  match s with
  | EmptyString => acc
  | String c rest => rev_acc rest (String c acc)
  end.

Definition rev (s : string) : string := rev_acc s "".

(** Drop leading members of [pats]; [fuel] bounds the number of rounds. *)
Fixpoint lstrip_with (pats : list string) (fuel : nat) (s : string) : string :=
  match fuel with
  | O => s
  | S k =>
      match List.find (fun p => String.prefix p s) pats with
      | Some p => lstrip_with pats k (drop (String.length p) s)
      | None => s
      end
  end.

Definition lstrip (s : string) : string :=
  lstrip_with whitespace (String.length s) s.

Definition rstrip (s : string) : string :=
  rev (lstrip_with (List.map rev whitespace) (String.length s) (rev s)).

(** [s.strip()]. *)
Definition strip (s : string) : string := rstrip (lstrip s).

(** The first [n] characters of [s] ([s[:n]]): a character is one byte
    that is not a UTF-8 continuation byte, followed by its continuation
    bytes. *)
Definition is_continuation (c : ascii) : bool :=
  ((128 <=? nat_of_ascii c) && (nat_of_ascii c <? 192))%nat.

Fixpoint take_chars (n : nat) (s : string) : string :=
  match s with
  | EmptyString => ""
  | String c rest =>
      if is_continuation c then String c (take_chars n rest)
      else match n with
           | O => ""
           | S k => String c (take_chars k rest)
           end
  end.

End PyStr.


(** ** Exceptions and results *)

(** The exceptions the two programs can meet.  All of them are subclasses of
    Python's [Exception]. *)
Inductive exn : Type :=
| FileNotFoundError (msg : string)
| IsADirectoryError (path : string)
| UnicodeDecodeError
| JSONDecodeError (doc : string)
| AttributeError (type_name attr : string)
| TypeError
| KeyError (key : string)
| IndexError
| ValueError (literal : string)
| RecursionError
| LibraryError (msg : string).

Inductive result (A : Type) : Type :=
| Ok (a : A)
| Raise (e : exn).
Arguments Ok {A} a.
Arguments Raise {A} e.

#[global] Instance result_ret : MRet result := fun A a => Ok a.
#[global] Instance result_bind : MBind result := fun A B f r =>
  match r with
  | Ok a => f a
  | Raise e => Raise e
  end.

#[global] Instance result_fmap : FMap result := fun A B f r =>
  match r with
  | Ok a => Ok (f a)
  | Raise e => Raise e
  end.

(** ** JSON values, as [json.loads] builds them *)

(** An object is a Python [dict]: its keys are kept in insertion order, and
    looking a key up finds its one entry. *)
Inductive json : Type :=
| JNull
| JBool (b : bool)
| JInt (z : Z)
| JFloat (f : spec_float)
| JString (s : string)
| JArray (items : list json)
| JObject (entries : list (string * json)).

Module Dict.

Definition t : Type := list (string * json).

Fixpoint get (k : string) (d : t) : option json :=
  match d with
  | [] => None
  | (k', v) :: rest => if String.eqb k k' then Some v else get k rest
  end.

Definition mem (k : string) (d : t) : bool :=
  match get k d with
  | Some _ => true
  | None => false
  end.

(** [d[k] = v]: an existing key keeps its place, a new key goes last. *)
Fixpoint set (k : string) (v : json) (d : t) : t :=
  match d with
  | [] => [(k, v)]
  | (k', v') :: rest =>
      if String.eqb k k' then (k, v) :: rest else (k', v') :: set k v rest
  end.

End Dict.

(** ** The Python environment *)

(** What the programs take from outside their own text: the file the Gateway
    is configured for (resolved once, when the module is loaded), the
    platform's line separator, and the library functions whose results the
    programs pass on without looking into them. *)
Class PyEnv : Type := {
  (** the module-level constant of [roi_config_mcp.py] *)
  ALLOWED_CONFIG_FILE : string;
  (** [os.linesep] *)
  os_linesep : string;
  (** [json.loads]: the value, or the exception raised
      ([json.JSONDecodeError] for a text that is not JSON, [RecursionError]
      for one nested more deeply than the interpreter allows) *)
  json_loads : string -> result json;
  (** [json.dumps(v, indent=2)], also the text [json.dump(v, f, indent=2)]
      writes *)
  json_dumps : json -> string;
  (** [hashlib.sha256(b).hexdigest()] *)
  sha256_hexdigest : string -> string;
  (** [str(v)] of a float, a list or a dict *)
  str_other : json -> string;
  (** [str(e)] of an exception raised by a library *)
  str_library_exn : exn -> string;
  (** [int(s)] of a string with characters outside ASCII *)
  int_unicode : string -> option Z;
  (** [anthropic.Anthropic()]: the exception it raises, if any *)
  Anthropic_init : option exn;
  (** [client.messages.create(...).content[0].text] for a prompt *)
  messages_create : string -> result string;
}.

(** ** Python operations on JSON values *)

Module Py.

(** [bool(v)]. *)
Definition truthy (v : json) : bool :=
  match v with
  | JNull => false
  | JBool b => b
  | JInt z => negb (z =? 0)
  | JFloat (S754_zero _) => false
  | JFloat _ => true
  | JString s => negb (String.eqb s "")
  | JArray l => match l with [] => false | _ => true end
  | JObject d => match d with [] => false | _ => true end
  end.

(** [v == s] for a string [s]. *)
Definition eq_str (v : json) (s : string) : bool :=
  match v with
  | JString s' => String.eqb s' s
  | _ => false
  end.

(** [type(v).__name__]. *)
Definition type_name (v : json) : string :=
  match v with
  | JNull => "NoneType"
  | JBool _ => "bool"
  | JInt _ => "int"
  | JFloat _ => "float"
  | JString _ => "str"
  | JArray _ => "list"
  | JObject _ => "dict"
  end.

(** [obj.get(key, default)]; [None] is [JNull]. *)
Definition get (obj : json) (key : string) (default : json) : result json :=
  match obj with
  | JObject d =>
      Ok (match Dict.get key d with Some v => v | None => default end)
  | _ => Raise (AttributeError (type_name obj) "get")
  end.

(** [obj.items()]. *)
Definition items (obj : json) : result (list (string * json)) :=
  match obj with
  | JObject d => Ok d
  | _ => Raise (AttributeError (type_name obj) "items")
  end.

(** [key in container] for a string [key]. *)
Definition contains (container : json) (key : string) : result bool :=
  match container with
  | JObject d => Ok (Dict.mem key d)
  | JString s => Ok (PyStr.contains key s)
  | JArray l => Ok (existsb (fun x => eq_str x key) l)
  | _ => Raise TypeError
  end.

(** [obj[key]] for a string [key]. *)
Definition getitem (obj : json) (key : string) : result json :=
  match obj with
  | JObject d =>
      match Dict.get key d with
      | Some v => Ok v
      | None => Raise (KeyError key)
      end
  | _ => Raise TypeError
  end.

(** [obj[key] = v] for a string [key]: the object after the assignment. *)
Definition setitem (obj : json) (key : string) (v : json) : result json :=
  match obj with
  | JObject d => Ok (JObject (Dict.set key v d))
  | _ => Raise TypeError
  end.

(** [v.split(sep)]. *)
Definition split (v : json) (sep : string) : result (list string) :=
  match v with
  | JString s => Ok (PyStr.split sep s)
  | _ => Raise (AttributeError (type_name v) "split")
  end.

(** [l[i]] on a list. *)
Definition index {A} (l : list A) (i : nat) : result A :=
  match List.nth_error l i with
  | Some x => Ok x
  | None => Raise IndexError
  end.

(** [str(z)], also [f"{z}"], of an integer. *)
Definition str_int (z : Z) : string := NilEmpty.string_of_int (Z.to_int z).

(** [len(v)]. *)
Definition len (v : json) : result Z :=
  match v with
  | JObject d => Ok (Z.of_nat (List.length d))
  | JArray l => Ok (Z.of_nat (List.length l))
  | JString s =>
      Ok (Z.of_nat (List.length
            (List.filter (fun c => negb (PyStr.is_continuation c))
                         (list_ascii_of_string s))))
  | _ => Raise TypeError
  end.

Section WithEnv.
Context {env : PyEnv}.

(** [str(v)], also [f"{v}"]. *)
Definition str (v : json) : string :=
  match v with
  | JNull => "None"
  | JBool true => "True"
  | JBool false => "False"
  | JInt z => str_int z
  | JString s => s
  | _ => str_other v
  end.

(** [str(e)]: the message given when the program raised the exception
    itself, the interpreter's message for an attribute the value does not
    have, the library's text otherwise. *)
Definition str_exn (e : exn) : string :=
  match e with
  | FileNotFoundError msg => msg
  | AttributeError type_name attr =>
      "'" +:+ type_name +:+ "' object has no attribute '" +:+ attr +:+ "'"
  | _ => str_library_exn e
  end.

End WithEnv.

(** *** [int(s)] *)

Definition is_digit (c : ascii) : bool :=
  ((48 <=? nat_of_ascii c) && (nat_of_ascii c <=? 57))%nat.

(** The ASCII characters [int] skips around a numeral. *)
Definition int_space (c : ascii) : bool :=
  ((9 <=? nat_of_ascii c) && (nat_of_ascii c <=? 13) || (nat_of_ascii c =? 32))%nat.

Fixpoint skip_spaces (s : string) : string :=
  match s with
  | String c rest => if int_space c then skip_spaces rest else s
  | EmptyString => s
  end.

(** The digits of a numeral: single underscores may stand between two
    digits and are dropped; anything else is refused. *)
Fixpoint digits (after_digit : bool) (s : string) : option string :=
  match s with
  | EmptyString => if after_digit then Some "" else None
  | String c rest =>
      if is_digit c then String c <$> digits true rest
      else if Ascii.eqb c "_" then
             if after_digit then digits false rest else None
      else None
  end.

Definition int_ascii (s : string) : option Z :=
  let body := PyStr.rev (skip_spaces (PyStr.rev (skip_spaces s))) in
  let '(negative, numeral) :=
    match body with
    | String c rest =>
        if Ascii.eqb c "-" then (true, rest)
        else if Ascii.eqb c "+" then (false, rest)
        else (false, body)
    | EmptyString => (false, body)
    end in
  ds ← digits false numeral;
  u ← NilEmpty.uint_of_string ds;
  Some (if negative then - Z.of_uint u else Z.of_uint u).

Definition int {env : PyEnv} (s : string) : result Z :=
  match (if PyStr.all_ascii s then int_ascii s else int_unicode s) with
  | Some z => Ok z
  | None => Raise (ValueError s)
  end.

End Py.


(** ** The world: files, clock, standard output *)

Inductive node : Type :=
| File (content : string)
| Dir.

Record datetime : Type := Datetime {
  year : Z; month : Z; day : Z; hour : Z; minute : Z; second : Z
}.

(** What the programs ask of the file system: a test of a path
    ([os.path.isfile], [os.path.exists]) or [open(path, mode)]. *)
Inductive access : Type :=
| Stat (path : string)
| Open (path mode : string).

(** [clock w n] is what the [n]-th call of [datetime.now()] returns;
    [ticks w] counts the calls made so far.  [stdout] holds the printed
    lines and [accesses] the accesses to the file system, oldest first. *)
Record world : Type := World {
  files : gmap string node;
  clock : nat -> datetime;
  ticks : nat;
  stdout : list string;
  accesses : list access;
}.

Definition M (A : Type) : Type := world -> result A * world.

#[global] Instance M_ret : MRet M := fun A a w => (Ok a, w).
#[global] Instance M_bind : MBind M := fun A B f m w =>
  match m w with
  | (Ok a, w') => f a w'
  | (Raise e, w') => (Raise e, w')
  end.

Definition lift {A} (r : result A) : M A := fun w => (r, w).
Definition raise {A} (e : exn) : M A := fun w => (Raise e, w).

(** [try: body except Exception as e: handler e]. *)
Definition try_except {A} (body : M A) (handler : exn -> M A) : M A :=
  fun w =>
    match body w with
    | (Ok a, w') => (Ok a, w')
    | (Raise e, w') => handler e w'
    end.

Definition nl : string := String (ascii_of_nat 10) "".
Definition cr : string := String (ascii_of_nat 13) "".
Definition dq : string := String (ascii_of_nat 34) "".

Module Sys.

Definition with_files (f : gmap string node -> gmap string node) (w : world) : world :=
  World (f (files w)) (clock w) (ticks w) (stdout w) (accesses w).

Definition accessed (a : access) (w : world) : world :=
  World (files w) (clock w) (ticks w) (stdout w) (accesses w ++ [a]).

Definition printed (line : string) (w : world) : world :=
  World (files w) (clock w) (ticks w) (stdout w ++ [line]) (accesses w).

Definition ticked (w : world) : world :=
  World (files w) (clock w) (S (ticks w)) (stdout w) (accesses w).

(** [os.path.isfile(path)] and [os.path.exists(path)]. *)
Definition isfile (path : string) : M bool := fun w =>
  (Ok (match files w !! path with Some (File _) => true | _ => false end),
   accessed (Stat path) w).

Definition exists_ (path : string) : M bool := fun w =>
  (Ok (match files w !! path with Some _ => true | None => false end),
   accessed (Stat path) w).

(** [print(line)]. *)
Definition print (line : string) : M unit := fun w => (Ok tt, printed line w).

(** [datetime.now()]. *)
Definition now : M datetime := fun w => (Ok (clock w (ticks w)), ticked w).

(** Zero-padded decimal, as [strftime] writes its numeric fields. *)
Definition pad (width : nat) (z : Z) : string :=
  let digits := Py.str_int z in
  string_of_list_ascii (List.repeat "0"%char (width - String.length digits))
  +:+ digits.

(** [dt.strftime(fmt)] for the directives the programs use ([%Y] as it is
    written for the four-digit years a clock gives). *)
Fixpoint strftime (dt : datetime) (fmt : string) : string :=
  match fmt with
  | EmptyString => ""
  | String c rest =>
      let literal := String c (strftime dt rest) in
      if Ascii.eqb c "%" then
        match rest with
        | String d rest' =>
            let field (w : nat) (z : Z) := pad w z +:+ strftime dt rest' in
            if Ascii.eqb d "Y" then field 4%nat (year dt)
            else if Ascii.eqb d "m" then field 2%nat (month dt)
            else if Ascii.eqb d "d" then field 2%nat (day dt)
            else if Ascii.eqb d "H" then field 2%nat (hour dt)
            else if Ascii.eqb d "M" then field 2%nat (minute dt)
            else if Ascii.eqb d "S" then field 2%nat (second dt)
            else literal
        | EmptyString => literal
        end
      else literal
  end.

(** *** Files opened in text mode *)

(** Well-formed UTF-8 (RFC 3629): [need] continuation bytes are still
    expected, the next of them within [lo..hi]. *)
Fixpoint utf8_valid_from (need lo hi : nat) (s : string) : bool :=
  match s with
  | EmptyString => (need =? 0)%nat
  | String c rest =>
      let b := nat_of_ascii c in
      match need with
      | S k => ((lo <=? b) && (b <=? hi))%nat && utf8_valid_from k 128 191 rest
      | O =>
          (if b <? 128 then utf8_valid_from 0 128 191 rest
           else if (194 <=? b) && (b <=? 223) then utf8_valid_from 1 128 191 rest
           else if b =? 224 then utf8_valid_from 2 160 191 rest
           else if b =? 237 then utf8_valid_from 2 128 159 rest
           else if (225 <=? b) && (b <=? 239) then utf8_valid_from 2 128 191 rest
           else if b =? 240 then utf8_valid_from 3 144 191 rest
           else if b =? 244 then utf8_valid_from 3 128 143 rest
           else if (241 <=? b) && (b <=? 243) then utf8_valid_from 3 128 191 rest
           else false)%nat
      end
  end.

Definition utf8_valid (s : string) : bool := utf8_valid_from 0 128 191 s.

(** Reading with [newline=None]: CR LF and CR alone both become LF. *)
Fixpoint universal_newlines (s : string) : string :=
  match s with
  | EmptyString => ""
  | String c rest =>
      if Ascii.eqb c (ascii_of_nat 13) then
        match rest with
        | String c' rest' =>
            if Ascii.eqb c' (ascii_of_nat 10)
            then String c' (universal_newlines rest')
            else String (ascii_of_nat 10) (universal_newlines rest)
        | EmptyString => nl
        end
      else String c (universal_newlines rest)
  end.

(** Writing with [newline=None]: every LF becomes [os.linesep]. *)
Fixpoint write_newlines (linesep : string) (s : string) : string :=
  match s with
  | EmptyString => ""
  | String c rest =>
      if Ascii.eqb c (ascii_of_nat 10)
      then linesep +:+ write_newlines linesep rest
      else String c (write_newlines linesep rest)
  end.

Section WithEnv.
Context {env : PyEnv}.

Definition no_such_file {A} (path : string) : result A :=
  Raise (FileNotFoundError ("[Errno 2] No such file or directory: '" +:+ path +:+ "'")).

(** [open(path, mode)] for reading: the bytes of the file. *)
Definition open_read (path mode : string) : M string := fun w =>
  (match files w !! path with
   | Some (File content) => Ok content
   | Some Dir => Raise (IsADirectoryError path)
   | None => no_such_file path
   end, accessed (Open path mode) w).

(** [open(path, "rb").read()]. *)
Definition read_bytes (path : string) : M string := open_read path "rb".

(** [open(path, "r", encoding="utf-8").read()]. *)
Definition read_text (path : string) : M string :=
  content ← open_read path "r";
  if utf8_valid content then mret (universal_newlines content)
  else raise UnicodeDecodeError.

(** [open(path, "w", encoding="utf-8")] followed by writing [text] and
    closing the file. *)
Definition write_text (path text : string) : M unit := fun w =>
  match files w !! path with
  | Some Dir => (Raise (IsADirectoryError path), accessed (Open path "w") w)
  | _ =>
      (Ok tt,
       with_files <[path := File (write_newlines os_linesep text)]>
         (accessed (Open path "w") w))
  end.

(** [json.loads(text)] and [json.load(f)]. *)
Definition loads (text : string) : result json := json_loads text.

End WithEnv.

End Sys.


(** ** The Config Gateway ([roi_config_mcp.py]) *)

Module Gateway.

Inductive ResponseFormat : Type := MARKDOWN | JSON.

(** The tools' inputs, as the functions receive them once validated. *)
Record ReadConfigInput : Type := {
  section : option string;
  response_format : ResponseFormat;
}.

Record UpdatePreviewInput : Type := {
  categories : option string;
}.

Record ApplyUpdateInput : Type := {
  updates_json : string;
  user_confirmed : bool;
  create_backup : bool;
}.

Section WithEnv.
Context {env : PyEnv}.

Definition _validate_file_access : M bool :=
  Sys.isfile ALLOWED_CONFIG_FILE.

Definition _get_file_hash : M string :=
  present ← _validate_file_access;
  if negb present then mret ""
  else
    content ← Sys.read_bytes ALLOWED_CONFIG_FILE;
    mret (PyStr.take_chars 12 (sha256_hexdigest content)).

Definition not_found : exn :=
  FileNotFoundError ("Config file not found: " +:+ ALLOWED_CONFIG_FILE).

Definition _read_config : M json :=
  present ← _validate_file_access;
  if negb present then raise not_found
  else
    text ← Sys.read_text ALLOWED_CONFIG_FILE;
    lift (Sys.loads text).

Definition _write_config (config : json) (backup : bool) : M string :=
  present ← _validate_file_access;
  if negb present then raise not_found
  else
    backup_path ←
      (if backup then
         now ← Sys.now;
         let backup_path :=
           ALLOWED_CONFIG_FILE +:+ ".backup-" +:+ Sys.strftime now "%Y%m%d-%H%M%S" in
         backup_content ← Sys.read_text ALLOWED_CONFIG_FILE;
         Sys.write_text backup_path backup_content;;
         mret (Some backup_path)
       else mret None);
    Sys.write_text ALLOWED_CONFIG_FILE (json_dumps config);;
    mret ("Config saved. Backup: " +:+ default "None" backup_path).

(** *** [roi_config_read] *)

Definition section_map : list (string * string) :=
  [("gpuTypes", "gpuTypes"); ("hardware", "hardware");
   ("models", "modelArchitectures"); ("storage", "storageOptions")].

Fixpoint lookup_section (name : string) (m : list (string * string)) : option string :=
  match m with
  | [] => None
  | (k, v) :: rest => if String.eqb name k then Some v else lookup_section name rest
  end.

(** Lines 88-98: the data a read returns for a section; [None] when the
    section is unknown. *)
Definition select_data (config : json) (section : option string) : result (option json) :=
  match section with
  | Some name =>
      if String.eqb name "" then Ok (Some config)
      else if String.eqb name "metadata" then
        version ← Py.get config "version" JNull;
        lastUpdated ← Py.get config "lastUpdated" JNull;
        Ok (Some (JObject [("version", version); ("lastUpdated", lastUpdated)]))
      else
        match lookup_section name section_map with
        | Some key => data ← Py.get config key (JObject []); Ok (Some data)
        | None => Ok None
        end
  | None => Ok (Some config)
  end.

(** Lines 99-103: the text returned for the selected data. *)
Definition render (config : json) (file_hash : string) (data : json)
    (format : ResponseFormat) : result string :=
  match format with
  | JSON =>
      Ok (json_dumps (JObject [("file_hash", JString file_hash); ("data", data)]))
  | MARKDOWN =>
      version ← Py.get config "version" JNull;
      Ok ("# ROI Config" +:+ nl +:+ "Version: " +:+ Py.str version +:+ nl
          +:+ PyStr.take_chars 3000 (json_dumps data))
  end.

Definition error_text (e : exn) : M string :=
  mret ("Error: " +:+ Py.str_exn e).

Definition roi_config_read (params : ReadConfigInput) : M string :=
  try_except
    (config ← _read_config;
     file_hash ← _get_file_hash;
     selected ← lift (select_data config (section params));
     match selected with
     | None => mret "Error: Unknown section"
     | Some data => lift (render config file_hash data (response_format params))
     end)
    error_text.

(** *** [roi_config_research] *)

Definition roi_config_research (params : UpdatePreviewInput) : M string :=
  config ← _read_config;
  version ← lift (Py.get config "version" JNull);
  now ← Sys.now;
  mret ("# Research Request" +:+ nl
        +:+ "Version: " +:+ Py.str version +:+ nl
        +:+ "Date: " +:+ Sys.strftime now "%Y-%m-%d" +:+ nl
        +:+ "Categories: " +:+ default "None" (categories params) +:+ nl
        +:+ nl
        +:+ "Research needed:" +:+ nl
        +:+ "- GPU pricing (H100, H200, B200, B300)" +:+ nl
        +:+ "- New AI models (Llama, Mistral, DeepSeek)  " +:+ nl
        +:+ "- Storage pricing updates" +:+ nl
        +:+ "- NVLink configurations" +:+ nl
        +:+ nl
        +:+ "Return JSON with version_increment, gpuTypes_updates, modelArchitectures_updates, notes.").

(** *** [roi_config_apply] *)

(** Lines 135-142: the new version string. *)
Definition bump (major minor patch : Z) (kind : json) : string :=
  let '(minor, patch) :=
    if Py.eq_str kind "minor" then (minor + 1, 0) else (minor, patch + 1) in
  Py.str_int major +:+ "." +:+ Py.str_int minor +:+ "." +:+ Py.str_int patch.

Definition next_version (old_version kind : json) : result string :=
  parts ← Py.split old_version ".";
  p0 ← Py.index parts 0; major ← Py.int p0;
  p1 ← Py.index parts 1; minor ← Py.int p1;
  p2 ← Py.index parts 2; patch ← Py.int p2;
  Ok (bump major minor patch kind).

(** Lines 132-143: the version step.  It gives the document and the list
    of change entries, which starts empty. *)
Definition version_step (updates config : json) : result (json * list string) :=
  old_version ← Py.get config "version" (JString "1.0.0");
  let changes : list string := [] in
  increment ← Py.get updates "version_increment" JNull;
  if Py.truthy increment then
    new_version ← next_version old_version increment;
    config ← Py.setitem config "version" (JString new_version);
    Ok (config, changes ++ ["Version: " +:+ Py.str old_version +:+ " -> " +:+ new_version])
  else Ok (config, changes).

(** [config[category][key][k] = v]: the document after the assignment to
    the property of the entry it holds. *)
Definition set_property (config : json) (category key k : string) (v : json) : result json :=
  entries ← Py.getitem config category;
  entry ← Py.getitem entries key;
  entry ← Py.setitem entry k v;
  entries ← Py.setitem entries key entry;
  Py.setitem config category entries.

(** Lines 147-149 and 152-154: the properties of one update entry;
    [label] is the category's name in the change entries. *)
Fixpoint apply_properties (category label key : string) (props : list (string * json))
    (config : json) (changes : list string) : result (json * list string) :=
  match props with
  | [] => Ok (config, changes)
  | (k, v) :: rest =>
      config ← set_property config category key k v;
      apply_properties category label key rest config
        (changes ++ [label +:+ "." +:+ key +:+ "." +:+ k +:+ ": " +:+ Py.str v])
  end.

(** Lines 146-149 and 151-154: one entry of an update map. *)
Definition apply_entry (category label : string) (entry : string * json)
    (config : json) (changes : list string) : result (json * list string) :=
  let '(key, data) := entry in
  existing ← Py.get config category (JObject []);
  known ← Py.contains existing key;
  if (known : bool) then
    props ← Py.items data;
    apply_properties category label key props config changes
  else Ok (config, changes).

Fixpoint apply_entries (category label : string) (entries : list (string * json))
    (config : json) (changes : list string) : result (json * list string) :=
  match entries with
  | [] => Ok (config, changes)
  | entry :: rest =>
      '(config, changes) ← apply_entry category label entry config changes;
      apply_entries category label rest config changes
  end.

(** Lines 145-149 and 150-154: the loop over one update map of the
    payload. *)
Definition apply_category (updates : json) (updates_key category label : string)
    (config : json) (changes : list string) : result (json * list string) :=
  update_map ← Py.get updates updates_key (JObject []);
  entries ← Py.items update_map;
  apply_entries category label entries config changes.

Definition report (changes : list string) (result : string) : string :=
  "# Update Applied" +:+ nl
  +:+ "Changes: " +:+ Py.str_int (Z.of_nat (List.length changes)) +:+ nl
  +:+ result +:+ nl
  +:+ PyStr.join nl (List.map (fun c => "- " +:+ c) (List.firstn 20 changes)).

Definition roi_config_apply (params : ApplyUpdateInput) : M string :=
  if negb (user_confirmed params) then
    mret "ERROR: Set user_confirmed=True to proceed"
  else
    try_except
      (updates ← lift (Sys.loads (updates_json params));
       config ← _read_config;
       '(config, changes) ← lift (version_step updates config);
       now ← Sys.now;
       config ← lift (Py.setitem config "lastUpdated"
                        (JString (Sys.strftime now "%Y-%m-%dT%H:%M:%SZ")));
       '(config, changes) ←
         lift (apply_category updates "gpuTypes_updates" "gpuTypes" "gpuTypes"
                 config changes);
       '(config, changes) ←
         lift (apply_category updates "modelArchitectures_updates"
                 "modelArchitectures" "models" config changes);
       result ← _write_config config (create_backup params);
       mret (report changes result))
      error_text.

(** *** [roi_config_status] *)

Definition roi_config_status : M string :=
  present ← _validate_file_access;
  status ←
    (if (present : bool) then
       config ← _read_config;
       version ← lift (Py.get config "version" JNull);
       gpuTypes ← lift (Py.get config "gpuTypes" (JObject []));
       gpus ← lift (Py.len gpuTypes);
       modelArchitectures ← lift (Py.get config "modelArchitectures" (JObject []));
       models ← lift (Py.len modelArchitectures);
       mret (Py.str version, gpus, models)
     else mret ("N/A", 0, 0)) : M (string * Z * Z);
  let '(version, gpus, models) := status in
  mret ("# ROI Config MCP Status" +:+ nl
        +:+ "File: " +:+ ALLOWED_CONFIG_FILE +:+ nl
        +:+ "Exists: " +:+ (if (present : bool) then "True" else "False") +:+ nl
        +:+ "Version: " +:+ version +:+ nl
        +:+ "GPUs: " +:+ Py.str_int gpus +:+ nl
        +:+ "Models: " +:+ Py.str_int models +:+ nl
        +:+ "Security: Single file access only, requires confirmation for writes").

End WithEnv.

End Gateway.

(** ** [str.format] *)

Module Format.

(** Replacement fields are read as CPython's formatter reads them: a field
    name runs to the first brace, colon or exclamation mark outside square
    brackets; a format specification runs to the closing brace that matches
    the opening one.  The field's value is looked up before its conversion
    and its format specification are applied.  Conversions and format
    specifications themselves are not modelled: a field that has been found
    is rendered as its value, which is exact for the plain fields [{name}]. *)

Definition bad_format {A} : result A := Raise (ValueError "format string").

(** The name of a field, the character that ends it, and the text after
    that character. *)
Fixpoint field_name (in_brackets : bool) (name s : string)
    : result (string * ascii * string) :=
  match s with
  | EmptyString => bad_format
  | String c rest =>
      let continue b := field_name b (name +:+ String c "") rest in
      if in_brackets then continue (negb (Ascii.eqb c "]"))
      else if Ascii.eqb c "{" then bad_format
      else if Ascii.eqb c "[" then continue true
      else if Ascii.eqb c "}" || Ascii.eqb c ":" || Ascii.eqb c "!"
      then Ok (name, c, rest)
      else continue false
  end.

(** The text after the brace that closes a format specification; [depth]
    counts the braces opened inside it. *)
Fixpoint after_spec (depth : nat) (s : string) : result string :=
  match s with
  | EmptyString => bad_format
  | String c rest =>
      if Ascii.eqb c "{" then after_spec (S depth) rest
      else if Ascii.eqb c "}" then
        match depth with
        | O => Ok rest
        | S d => after_spec d rest
        end
      else after_spec depth rest
  end.

(** The text after a field whose name ended with [stop]. *)
Definition after_field (stop : ascii) (s : string) : result string :=
  if Ascii.eqb stop "}" then Ok s
  else if Ascii.eqb stop ":" then after_spec 0 s
  else
    match s with
    | EmptyString => bad_format
    | String _ (String c rest) =>
        if Ascii.eqb c "}" then Ok rest
        else if Ascii.eqb c ":" then after_spec 0 rest
        else bad_format
    | String _ EmptyString => after_spec 0 ""
    end.

(** The part of a field name that is looked up: what stands before the
    first dot or opening bracket. *)
Fixpoint first_part (name : string) : string :=
  match name with
  | EmptyString => ""
  | String c rest =>
      if Ascii.eqb c "." || Ascii.eqb c "[" then "" else String c (first_part rest)
  end.

Fixpoint assoc (name : string) (kwargs : list (string * string)) : option string :=
  match kwargs with
  | [] => None
  | (k, v) :: rest => if String.eqb name k then Some v else assoc name rest
  end.

(** With keyword arguments only, an empty or numeric name asks for a
    positional argument that is not there. *)
Definition field_value (kwargs : list (string * string)) (name : string) : result string :=
  let first := first_part name in
  if forallb Py.is_digit (list_ascii_of_string first) then Raise IndexError
  else
    match assoc first kwargs with
    | Some v => Ok v
    | None => Raise (KeyError first)
    end.

Fixpoint format_go (fuel : nat) (kwargs : list (string * string)) (s : string)
    : result string :=
  match fuel, s with
  | _, EmptyString => Ok ""
  | O, _ => Ok ""
  | S fuel, String c rest =>
      if Ascii.eqb c "{" then
        match rest with
        | EmptyString => bad_format
        | String c' rest' =>
            if Ascii.eqb c' "{" then String c <$> format_go fuel kwargs rest'
            else
              '(name, stop, after) ← field_name false "" rest;
              after ← after_field stop after;
              value ← field_value kwargs name;
              tail ← format_go fuel kwargs after;
              Ok (value +:+ tail)
        end
      else if Ascii.eqb c "}" then
        match rest with
        | String c' rest' =>
            if Ascii.eqb c' "}" then String c <$> format_go fuel kwargs rest'
            else bad_format
        | EmptyString => bad_format
        end
      else String c <$> format_go fuel kwargs rest
  end.

(** [template.format] called with keyword arguments only; each value is
    given as the text an empty format specification renders it to. *)
Definition format (template : string) (kwargs : list (string * string)) : result string :=
  format_go (String.length template) kwargs template.

End Format.

(** ** The Batch Updater ([weekly_update.py]) *)

Module Batch.

Definition CONFIG_FILE : string := "roi-config Rev 08.json".

Definition UPDATE_PROMPT : string :=
  "You are updating an F5 DPU ROI Calculator configuration file." +:+ nl
  +:+ nl
  +:+ "Current date: {date}" +:+ nl
  +:+ "Current config version: {version}" +:+ nl
  +:+ nl
  +:+ "TASK: Research and provide updated values for GPU pricing and new models in JSON format." +:+ nl
  +:+ nl
  +:+ "Return ONLY a JSON object with:" +:+ nl
  +:+ "{" +:+ nl
  +:+ "  " +:+ dq +:+ "version_increment" +:+ dq +:+ ": " +:+ dq +:+ "patch|minor" +:+ dq +:+ "," +:+ nl
  +:+ "  " +:+ dq +:+ "gpu_updates" +:+ dq +:+ ": {}," +:+ nl
  +:+ "  " +:+ dq +:+ "new_gpus" +:+ dq +:+ ": {}," +:+ nl
  +:+ "  " +:+ dq +:+ "new_models" +:+ dq +:+ ": {}," +:+ nl
  +:+ "  " +:+ dq +:+ "notes" +:+ dq +:+ ": " +:+ dq +:+ "Summary of changes" +:+ dq +:+ nl
  +:+ "}" +:+ nl.

Section WithEnv.
Context {env : PyEnv}.

(** Lines 50-53: the part of the response handed to the parser. *)
Definition json_str (response_text : string) : result string :=
  if PyStr.contains "```json" response_text then
    after ← Py.index (PyStr.split "```json" response_text) 1;
    Py.index (PyStr.split "```" after) 0
  else Ok response_text.

(** Lines 49-57: the JSON value in the response; [None] ([JNull]) when the
    parser raises [json.JSONDecodeError], the one exception the handler
    catches. *)
Definition parse_response (response_text : string) : M json :=
  try_except
    (json_str ← lift (json_str response_text);
     lift (Sys.loads (PyStr.strip json_str)))
    (fun e =>
       match e with
       | JSONDecodeError _ =>
           Sys.print ("Failed to parse response: " +:+ Py.str_exn e);;
           mret JNull
       | _ => raise e
       end).

Definition get_claude_updates (current_config : json) : M json :=
  lift (match Anthropic_init with Some e => Raise e | None => Ok tt end);;
  now ← Sys.now;
  version ← lift (Py.get current_config "version" (JString "unknown"));
  prompt ← lift (Format.format UPDATE_PROMPT
                   [("date", Sys.strftime now "%Y-%m-%d");
                    ("version", Py.str version)]);
  response_text ← lift (messages_create prompt);
  parse_response response_text.

Definition increment_version (version increment_type : json) : result json :=
  parts ← Py.split version ".";
  if (List.length parts =? 3)%nat then
    p0 ← Py.index parts 0; major ← Py.int p0;
    p1 ← Py.index parts 1; minor ← Py.int p1;
    p2 ← Py.index parts 2; patch ← Py.int p2;
    let '(minor, patch) :=
      if Py.eq_str increment_type "minor" then (minor + 1, 0)
      else (minor, patch + 1) in
    Ok (JString (Py.str_int major +:+ "." +:+ Py.str_int minor +:+ "."
                 +:+ Py.str_int patch))
  else Ok version.

Definition apply_updates (config updates : json) : M (json * bool) :=
  if negb (Py.truthy updates) then
    Sys.print "No updates to apply";;
    mret (config, false)
  else
    increment ← lift (Py.get updates "version_increment" JNull);
    '(config, changes_made) ←
      (if Py.truthy increment then
         old_version ← lift (Py.get config "version" (JString "1.0.0"));
         new_version ← lift (increment_version old_version increment);
         config ← lift (Py.setitem config "version" new_version);
         Sys.print ("Version: " +:+ Py.str old_version +:+ " -> "
                    +:+ Py.str new_version);;
         mret (config, true)
       else mret (config, false)) : M (json * bool);
    now ← Sys.now;
    config ← lift (Py.setitem config "lastUpdated"
                     (JString (Sys.strftime now "%Y-%m-%dT%H:%M:%SZ")));
    mret (config, changes_made).

(** Lines 104-118 of [main]: what is done with the result of
    [get_claude_updates]. *)
Definition finish (config updates : json) : M Z :=
  if Py.truthy updates then
    notes ← lift (Py.get updates "notes" (JString "No notes"));
    Sys.print ("Update notes: " +:+ Py.str notes);;
    '(config, changes_made) ← apply_updates config updates;
    (if (changes_made : bool) then
       Sys.write_text CONFIG_FILE (json_dumps config);;
       Sys.print ("Saved updates to " +:+ CONFIG_FILE)
     else Sys.print "No changes were needed");;
    mret 0
  else
    Sys.print "Failed to get updates from Claude API";;
    mret 1.

Definition main : M Z :=
  Sys.print "=== Weekly ROI Calculator Update ===";;
  now ← Sys.now;
  Sys.print ("Date: " +:+ Sys.strftime now "%Y-%m-%d %H:%M:%S");;
  present ← Sys.exists_ CONFIG_FILE;
  if negb present then
    Sys.print ("Error: Config file not found: " +:+ CONFIG_FILE);;
    mret 1
  else
    text ← Sys.read_text CONFIG_FILE;
    config ← lift (Sys.loads text);
    version ← lift (Py.get config "version" (JString "unknown"));
    Sys.print ("Current version: " +:+ Py.str version);;
    Sys.print "Fetching updates from Claude API...";;
    updates ← get_claude_updates config;
    finish config updates.

(** [exit(main())]: the status the process ends with; an exception that
    nothing catches ends it with status 1. *)
Definition exit_status (r : result Z) : Z :=
  match r with
  | Ok code => code
  | Raise _ => 1
  end.

End WithEnv.

End Batch.

(** ** An environment for worked examples *)

Module Example.

Definition spaces (n : nat) : string :=
  string_of_list_ascii (List.repeat " "%char n).

(** [json.dumps(v, indent=2)] for values without floats whose strings
    need no escaping. *)
Fixpoint dumps (indent : nat) (v : json) : string :=
  let inner := (indent + 2)%nat in
  let block (opening closing : string) (lines : list string) : string :=
    opening +:+ nl +:+ PyStr.join ("," +:+ nl) lines +:+ nl
    +:+ spaces indent +:+ closing in
  match v with
  | JNull => "null"
  | JBool b => if b then "true" else "false"
  | JInt z => Py.str_int z
  | JFloat _ => "NaN"
  | JString s => dq +:+ s +:+ dq
  | JArray [] => "[]"
  | JArray items =>
      block "[" "]" (List.map (fun x => spaces inner +:+ dumps inner x) items)
  | JObject [] => "{}"
  | JObject entries =>
      block "{" "}"
        (List.map (fun '(k, x) =>
                     spaces inner +:+ dq +:+ k +:+ dq +:+ ": " +:+ dumps inner x)
                  entries)
  end.

(** A configuration document kept with CR LF line ends, and the value it
    parses to. *)
Definition crlf_text : string :=
  "{" +:+ cr +:+ nl
  +:+ "  " +:+ dq +:+ "version" +:+ dq +:+ ": " +:+ dq +:+ "1.0.0" +:+ dq +:+ cr +:+ nl
  +:+ "}".

Definition crlf_document : json := JObject [("version", JString "1.0.0")].

(** The document of the specification's read example. *)
Definition metadata_document : json :=
  JObject [("version", JString "2.1.0");
           ("lastUpdated", JString "2024-01-01T00:00:00Z");
           ("gpuTypes", JObject [("H100", JObject [("price", JInt 30000)])])].

Definition metadata_text : string := dumps 0 metadata_document.

(** Two update proposals, and a response that fences the empty one. *)
Definition empty_kind_update : json := JObject [("version_increment", JString "")].

Definition empty_kind_text : string := dumps 0 empty_kind_update.

Definition notes_update : json := JObject [("notes", JString "no changes")].

Definition notes_text : string := dumps 0 notes_update.

Definition fenced_empty_text : string :=
  "Here is the update:" +:+ nl +:+ "```json" +:+ nl +:+ "{}" +:+ nl +:+ "```" +:+ nl.

(** A payload with an entry for a GPU the document of the read example
    lacks, [B300], and one for a GPU it has. *)
Definition new_gpu_update : json :=
  JObject [("gpuTypes_updates",
            JObject [("B300", JObject [("price", JInt 50000)]);
                     ("H100", JObject [("price", JInt 25000)])])].

Definition new_gpu_text : string := dumps 0 new_gpu_update.

(** [json.loads], defined on the texts the examples use: any other text
    raises [json.JSONDecodeError]. *)
Definition known_texts : list (string * json) :=
  [("{}", JObject []);
   (Sys.universal_newlines crlf_text, crlf_document);
   (metadata_text, metadata_document);
   (empty_kind_text, empty_kind_update);
   (notes_text, notes_update);
   (new_gpu_text, new_gpu_update)].

Fixpoint loads_in (table : list (string * json)) (text : string) : option json :=
  match table with
  | [] => None
  | (t, v) :: rest => if String.eqb t text then Some v else loads_in rest text
  end.

Definition loads (table : list (string * json)) (text : string) : result json :=
  match loads_in table text with
  | Some v => Ok v
  | None => Raise (JSONDecodeError text)
  end.

Definition config_path : string := "/data/roi-config Rev 08.json".

Definition env : PyEnv := {|
  ALLOWED_CONFIG_FILE := config_path;
  os_linesep := nl;
  json_loads := loads known_texts;
  json_dumps := dumps 0;
  sha256_hexdigest := fun _ => "e3b0c44298fc1c149afbf4c8996fb92427ae41e4649b934ca495991b7852b855";
  str_other := dumps 0;
  str_library_exn := fun e =>
    match e with
    | FileNotFoundError msg => msg
    | IsADirectoryError path => "[Errno 21] Is a directory: '" +:+ path +:+ "'"
    | UnicodeDecodeError => "'utf-8' codec can't decode"
    | JSONDecodeError _ => "Expecting value: line 1 column 1 (char 0)"
    | AttributeError type_name attr =>
        "'" +:+ type_name +:+ "' object has no attribute '" +:+ attr +:+ "'"
    | TypeError => "unsupported operand"
    | KeyError key => "'" +:+ key +:+ "'"
    | IndexError => "list index out of range"
    | ValueError literal => "invalid literal for int() with base 10: '" +:+ literal +:+ "'"
    | RecursionError => "maximum recursion depth exceeded while decoding a JSON array"
    | LibraryError msg => msg
    end;
  int_unicode := fun _ => None;
  Anthropic_init := None;
  messages_create := fun _ => Ok "I could not find any pricing changes this week.";
|}.

Definition noon : datetime := Datetime 2024 6 1 12 0 0.

(** A world with the given files, where every clock reading is [noon]. *)
Definition world_with (fs : gmap string node) : world :=
  World fs (fun _ => noon) 0 [] [].

End Example.

(** ** A second environment for worked examples

    A platform whose lines end with CR LF, where one payload that is a list
    parses, the API client can be made, and the API answers every prompt
    with a well-formed update inside a JSON fence. *)

Module Sample.

Definition list_text : string := "[1]".

Definition patch_update : json :=
  JObject [("version_increment", JString "patch");
           ("notes", JString "H100 price update")].

Definition patch_response : string :=
  "Here is the update:" +:+ nl +:+ "```json" +:+ nl
  +:+ Example.dumps 0 patch_update +:+ nl +:+ "```" +:+ nl.

Definition crlf_env : PyEnv := {|
  ALLOWED_CONFIG_FILE := Example.config_path;
  os_linesep := cr +:+ nl;
  json_loads :=
    Example.loads ((list_text, JArray [JInt 1])
                   :: (Example.dumps 0 patch_update, patch_update)
                   :: Example.known_texts);
  json_dumps := Example.dumps 0;
  sha256_hexdigest := @sha256_hexdigest Example.env;
  str_other := Example.dumps 0;
  str_library_exn := @str_library_exn Example.env;
  int_unicode := fun _ => None;
  Anthropic_init := None;
  messages_create := fun _ => Ok patch_response;
|}.

End Sample.

(** * Vocabulary of the statements *)

Section Vocabulary.
Context {env : PyEnv}.

(** A string all of whose characters satisfy [p]. *)
Definition all_chars (p : ascii -> bool) (s : string) : bool :=
  forallb p (list_ascii_of_string s).

(** The decimal numeral of a natural number, as [str] writes it. *)
Definition dec (n : N) : string := Py.str_int (Z.of_N n).

(** Any character but the dot. *)
Definition not_dot (c : ascii) : bool := negb (Ascii.eqb c ".").

(** Three numerals joined by dots. *)
Definition dotted (a b c : N) : string :=
  dec a +:+ "." +:+ dec b +:+ "." +:+ dec c.

(** In [w] the configured file holds [content], which is read as the
    document [doc]. *)
Definition holds (w : world) (content : string) (doc : json) : Prop :=
  files w !! ALLOWED_CONFIG_FILE = Some (File content) /\
  Sys.utf8_valid content = true /\
  json_loads (Sys.universal_newlines content) = Ok doc.


(** The world after [_validate_file_access], and after a [_read_config]
    that found the file. *)
Definition probed (w : world) : world :=
  Sys.accessed (Stat ALLOWED_CONFIG_FILE) w.

Definition read (w : world) : world :=
  Sys.accessed (Open ALLOWED_CONFIG_FILE "r") (probed w).

(** The path of the backup taken when the clock is read in [w]. *)
Definition backup_path (w : world) : string :=
  ALLOWED_CONFIG_FILE +:+ ".backup-" +:+ Sys.strftime (clock w (ticks w)) "%Y%m%d-%H%M%S".

Definition encode (text : string) : string := Sys.write_newlines os_linesep text.

(** The value [lastUpdated] receives when the clock is read in [w]. *)
Definition stamp (w : world) : json :=
  JString (Sys.strftime (clock w (ticks w)) "%Y-%m-%dT%H:%M:%SZ").

(** What a confirmed call that reaches its write has gone through: the
    payload [updates] and the document [JObject d] were read, the version
    step gave [d1], the two loops gave [c3] and then [c4], and [c4] was
    written. *)
Inductive applied (params : Gateway.ApplyUpdateInput) (w w' : world) (text : string) : Prop :=
| Applied (updates : json) (content : string) (d d1 : Dict.t) (c3 c4 : json)
    (ch1 ch3 ch4 : list string) (result : string) :
    Sys.loads (Gateway.updates_json params) = Ok updates ->
    holds w content (JObject d) ->
    Gateway.version_step updates (JObject d) = Ok (JObject d1, ch1) ->
    Gateway.apply_category updates "gpuTypes_updates" "gpuTypes" "gpuTypes"
      (JObject (Dict.set "lastUpdated" (stamp w) d1)) ch1 = Ok (c3, ch3) ->
    Gateway.apply_category updates "modelArchitectures_updates"
      "modelArchitectures" "models" c3 ch3 = Ok (c4, ch4) ->
    Gateway._write_config c4 (Gateway.create_backup params) (Sys.ticked (read w))
    = (Ok result, w') ->
    text = Gateway.report ch4 result ->
    applied params w w' text.




(** The example world whose configured file holds [content]. *)
Definition stored (content : string) : world :=
  Example.world_with {[ Example.config_path := File content ]}.

(** The world after a [_get_file_hash] that found the file, and the digest
    it returns for the bytes [content]. *)
Definition hashed (w : world) : world :=
  Sys.accessed (Open ALLOWED_CONFIG_FILE "rb") (probed w).

Definition digest (content : string) : string :=
  PyStr.take_chars 12 (sha256_hexdigest content).

(** What [try: return text except Exception as e: return f"Error: {e}"]
    returns. *)
Definition answer (r : result string) : string :=
  match r with
  | Ok text => text
  | Raise e => "Error: " +:+ Py.str_exn e
  end.

(** No regular file is at the configured path. *)
Definition missing (w : world) : Prop :=
  forall content, files w !! ALLOWED_CONFIG_FILE <> Some (File content).

(** The path an access is made to. *)
Definition path_of (a : access) : string :=
  match a with
  | Stat path => path
  | Open path _ => path
  end.

(** From [w] to [w'] the file system was only asked about paths in
    [paths]. *)
Definition confined (paths : list string) (w w' : world) : Prop :=
  exists log, accesses w' = accesses w ++ log /\
              Forall (fun a => path_of a ∈ paths) log.

(** The properties of an entry after the assignments [entry[k] = v] for
    the pairs of [props], in their order. *)
Definition assign_all (props : list (string * json)) (entry : Dict.t) : Dict.t :=
  fold_left (fun acc kv => Dict.set (fst kv) (snd kv) acc) props entry.

(** The change entries recorded for the properties [props] of [key]. *)
Definition change_lines (label key : string) (props : list (string * json)) : list string :=
  List.map (fun kv => label +:+ "." +:+ key +:+ "." +:+ fst kv +:+ ": " +:+ Py.str (snd kv))
           props.


(** The number of dots in a string. *)
Definition dots (s : string) : nat :=
  List.length (List.filter (Ascii.eqb ".") (list_ascii_of_string s)).

(** The keys of an object, in their order. *)
Definition keys (d : Dict.t) : list string := List.map fst d.


End Vocabulary.

Ltac in_list :=
  repeat first [apply list_elem_of_here | apply list_elem_of_further].

Ltac not_in_list :=
  let H := fresh in
  rewrite !elem_of_cons, elem_of_nil; intros H; decompose [or] H;
  first [discriminate | contradiction].

Ltac world_simpl :=
  cbn [files clock ticks stdout accesses Sys.printed Sys.ticked Sys.accessed
       Sys.with_files Sys.print Sys.now Sys.exists_ Sys.isfile] in *.

Ltac unfold_m :=
  unfold mbind, M_bind, mret, M_ret, lift, raise, try_except in *.

(** Closes a goal [confined paths w w'] for a world [w'] written out as the
    accesses made from [w]. *)
Ltac confined_log :=
  unfold confined;
  cbn [snd accesses hashed read probed Sys.accessed Sys.ticked Sys.with_files];
  rewrite <- ?app_assoc;
  first [ exists []; split; [now rewrite app_nil_r | constructor]
        | eexists; split; [reflexivity|]; cbn [app];
          repeat (constructor; [cbn [path_of]; in_list|]); constructor ].

(** * Properties *)

(** ** Strings and numerals *)

Section Strings.

Lemma append_cons (c : ascii) (a b : string) :
  String c a +:+ b = String c (a +:+ b).
Proof. reflexivity. Qed.

Lemma append_nil_r (s : string) : s +:+ "" = s.
Proof.
  induction s as [|c s IH]; [reflexivity|].
  now rewrite append_cons, IH.
Qed.

Lemma append_assoc (a b c : string) : (a +:+ b) +:+ c = a +:+ (b +:+ c).
Proof.
  induction a as [|x a IH]; [reflexivity|].
  now rewrite !append_cons, IH.
Qed.

Lemma length_append (a b : string) :
  String.length (a +:+ b) = (String.length a + String.length b)%nat.
Proof.
  induction a as [|x a IH]; [reflexivity|].
  rewrite append_cons. simpl. now rewrite IH.
Qed.

Lemma rev_acc_rev_acc (s acc : string) :
  PyStr.rev_acc (PyStr.rev_acc s acc) "" = PyStr.rev_acc acc s.
Proof.
  revert acc. induction s as [|c s IH]; intros acc; simpl; [reflexivity|].
  now rewrite IH.
Qed.

Lemma rev_involutive (s : string) : PyStr.rev (PyStr.rev s) = s.
Proof. unfold PyStr.rev. now rewrite rev_acc_rev_acc. Qed.

Lemma all_chars_cons p c s :
  all_chars p (String c s) = p c && all_chars p s.
Proof. reflexivity. Qed.

Lemma all_chars_rev_acc p s acc :
  all_chars p (PyStr.rev_acc s acc) = all_chars p s && all_chars p acc.
Proof.
  revert acc. induction s as [|c s IH]; intros acc; [reflexivity|].
  simpl. rewrite IH, !all_chars_cons.
  destruct (p c), (all_chars p s), (all_chars p acc); reflexivity.
Qed.

Lemma all_chars_impl (p q : ascii -> bool) s :
  (forall c, p c = true -> q c = true) ->
  all_chars p s = true -> all_chars q s = true.
Proof.
  intros Hpq. induction s as [|c s IH]; [reflexivity|].
  rewrite !all_chars_cons, !andb_true_iff. intros [Hc Hs]. auto.
Qed.

End Strings.

Section Numerals.

Lemma dec_uint (n : N) : dec n = NilEmpty.string_of_uint (N.to_uint n).
Proof. now destruct n. Qed.

Lemma string_of_uint_digits (u : uint) :
  all_chars Py.is_digit (NilEmpty.string_of_uint u) = true.
Proof. induction u; simpl; try rewrite all_chars_cons; auto. Qed.

Lemma dec_digits (n : N) : all_chars Py.is_digit (dec n) = true.
Proof. rewrite dec_uint. apply string_of_uint_digits. Qed.

Lemma dec_nonempty (n : N) : dec n <> "".
Proof.
  rewrite dec_uint. destruct n as [|p]; [discriminate|].
  simpl. pose proof (DecimalPos.Unsigned.to_uint_nonnil p) as Hp.
  destruct (Pos.to_uint p); [congruence | discriminate ..].
Qed.

Lemma digit_not_space (c : ascii) : Py.is_digit c = true -> Py.int_space c = false.
Proof.
  unfold Py.is_digit, Py.int_space. intros Hd.
  apply andb_true_iff in Hd as [H1 H2].
  apply Nat.leb_le in H1. apply Nat.leb_le in H2.
  apply orb_false_iff. split.
  - apply andb_false_iff. right. apply Nat.leb_gt. lia.
  - apply Nat.eqb_neq. lia.
Qed.

Lemma digit_is_ascii (c : ascii) : Py.is_digit c = true -> PyStr.is_ascii c = true.
Proof.
  unfold Py.is_digit, PyStr.is_ascii. intros Hd.
  apply andb_true_iff in Hd as [H1 H2]. apply Nat.leb_le in H2.
  apply Nat.ltb_lt. lia.
Qed.

Lemma digit_not_char (c x : ascii) :
  Py.is_digit c = true -> Py.is_digit x = false -> Ascii.eqb c x = false.
Proof.
  intros Hc Hx. destruct (Ascii.eqb_spec c x) as [->|]; [congruence | reflexivity].
Qed.

Lemma skip_spaces_digits (s : string) :
  all_chars Py.is_digit s = true -> Py.skip_spaces s = s.
Proof.
  destruct s as [|c s]; [reflexivity|].
  rewrite all_chars_cons. intros [Hc _]%andb_true_iff.
  simpl. now rewrite (digit_not_space c Hc).
Qed.

Lemma digits_of_digits (s : string) :
  all_chars Py.is_digit s = true -> Py.digits true s = Some s.
Proof.
  induction s as [|c s IH]; [reflexivity|].
  rewrite all_chars_cons. intros [Hc Hs]%andb_true_iff.
  simpl. rewrite Hc, (IH Hs). reflexivity.
Qed.

Lemma digits_of_numeral (s : string) :
  s <> "" -> all_chars Py.is_digit s = true -> Py.digits false s = Some s.
Proof.
  destruct s as [|c s]; [congruence|]. intros _.
  rewrite all_chars_cons. intros [Hc Hs]%andb_true_iff.
  simpl. rewrite Hc, (digits_of_digits s Hs). reflexivity.
Qed.

Lemma int_ascii_numeral (s : string) :
  s <> "" -> all_chars Py.is_digit s = true ->
  Py.int_ascii s = (u ← NilEmpty.uint_of_string s; Some (Z.of_uint u)).
Proof.
  intros Hne Hd. unfold Py.int_ascii.
  rewrite (skip_spaces_digits _ Hd).
  rewrite skip_spaces_digits, rev_involutive
    by (unfold PyStr.rev; now rewrite all_chars_rev_acc, Hd).
  pose proof (digits_of_numeral s Hne Hd) as Hds.
  destruct s as [|c s]; [congruence|].
  rewrite all_chars_cons in Hd. apply andb_true_iff in Hd as [Hc _].
  lazy beta iota.
  rewrite !(digit_not_char c) by (assumption || reflexivity).
  now rewrite Hds.
Qed.

Lemma int_ascii_dec (n : N) : Py.int_ascii (dec n) = Some (Z.of_N n).
Proof.
  rewrite int_ascii_numeral by (apply dec_nonempty || apply dec_digits).
  rewrite dec_uint, NilEmpty.usu. simpl.
  unfold Z.of_uint. do 2 f_equal. apply DecimalN.Unsigned.of_to.
Qed.

Lemma int_dec {env : PyEnv} (n : N) : Py.int (dec n) = Ok (Z.of_N n).
Proof.
  unfold Py.int.
  assert (PyStr.all_ascii (dec n) = true) as ->.
  { apply (all_chars_impl Py.is_digit); [apply digit_is_ascii | apply dec_digits]. }
  now rewrite int_ascii_dec.
Qed.

(** Splitting at dots. *)

Lemma digit_not_dot (c : ascii) : Py.is_digit c = true -> not_dot c = true.
Proof. intros Hc. unfold not_dot. now rewrite (digit_not_char c "."). Qed.

Lemma prefix_nil (s : string) : String.prefix "" s = true.
Proof. now destruct s. Qed.

Lemma prefix_dot (c : ascii) (s : string) :
  String.prefix "." (String c s) = Ascii.eqb c ".".
Proof.
  change (String.prefix "." (String c s))
    with (if ascii_dec "." c then String.prefix "" s else false).
  destruct (ascii_dec "." c) as [<-|Hne].
  - now rewrite prefix_nil.
  - symmetry. apply Ascii.eqb_neq. congruence.
Qed.

Lemma split_go_dot_cons (piece : string) (c : ascii) (s : string) :
  PyStr.split_go "." 0 piece (String c s) =
  if Ascii.eqb c "." then piece :: PyStr.split_go "." 0 "" s
  else PyStr.split_go "." 0 (piece +:+ String c "") s.
Proof.
  change (PyStr.split_go "." 0 piece (String c s))
    with (if String.prefix "." (String c s)
          then piece :: PyStr.split_go "." 0 "" s
          else PyStr.split_go "." 0 (piece +:+ String c "") s).
  now rewrite prefix_dot.
Qed.

Lemma split_go_dot (s piece rest : string) :
  all_chars not_dot s = true ->
  PyStr.split_go "." 0 piece (s +:+ String "." rest) =
  (piece +:+ s) :: PyStr.split_go "." 0 "" rest.
Proof.
  revert piece. induction s as [|c s IH]; intros piece Hs.
  - change ("" +:+ String "." rest) with (String "." rest).
    now rewrite append_nil_r, split_go_dot_cons.
  - rewrite all_chars_cons in Hs. apply andb_true_iff in Hs as [Hc Hs].
    rewrite append_cons, split_go_dot_cons.
    unfold not_dot in Hc. apply negb_true_iff in Hc. rewrite Hc.
    rewrite (IH _ Hs), append_assoc. reflexivity.
Qed.

Lemma split_go_last (s piece : string) :
  all_chars not_dot s = true ->
  PyStr.split_go "." 0 piece s = [piece +:+ s].
Proof.
  revert piece. induction s as [|c s IH]; intros piece Hs.
  - now rewrite append_nil_r.
  - rewrite all_chars_cons in Hs. apply andb_true_iff in Hs as [Hc Hs].
    rewrite split_go_dot_cons.
    unfold not_dot in Hc. apply negb_true_iff in Hc. rewrite Hc.
    rewrite (IH _ Hs), append_assoc. reflexivity.
Qed.

Lemma split_dotted (a b c : N) :
  PyStr.split "." (dotted a b c) = [dec a; dec b; dec c].
Proof.
  assert (forall n, all_chars not_dot (dec n) = true) as Hnd.
  { intros n. apply (all_chars_impl Py.is_digit); [apply digit_not_dot | apply dec_digits]. }
  unfold PyStr.split, dotted.
  change ("." +:+ dec b +:+ "." +:+ dec c) with (String "." (dec b +:+ "." +:+ dec c)).
  rewrite split_go_dot by apply Hnd.
  change ("." +:+ dec c) with (String "." (dec c)).
  rewrite split_go_dot by apply Hnd.
  rewrite split_go_last by apply Hnd.
  reflexivity.
Qed.

End Numerals.

(** ** The version rule *)

Section VersionRule.
Context {env : PyEnv}.

Lemma next_version_dotted (a b c : N) (kind : json) :
  Gateway.next_version (JString (dotted a b c)) kind =
  Ok (if Py.eq_str kind "minor" then dotted a (b + 1) 0 else dotted a b (c + 1)).
Proof.
  unfold Gateway.next_version, Py.split. rewrite split_dotted.
  cbn [mbind result_bind Py.index nth_error].
  rewrite !int_dec. cbn [mbind result_bind].
  unfold Gateway.bump, dotted, dec.
  destruct (Py.eq_str kind "minor"); now rewrite N2Z.inj_add.
Qed.

Lemma next_version_parts (version p0 p1 p2 : string) (more : list string)
    (major minor patch : Z) (kind : json) :
  PyStr.split "." version = p0 :: p1 :: p2 :: more ->
  Py.int p0 = Ok major -> Py.int p1 = Ok minor -> Py.int p2 = Ok patch ->
  Gateway.next_version (JString version) kind =
  Ok (if Py.eq_str kind "minor"
      then Py.str_int major +:+ "." +:+ Py.str_int (minor + 1) +:+ "." +:+ Py.str_int 0
      else Py.str_int major +:+ "." +:+ Py.str_int minor +:+ "." +:+ Py.str_int (patch + 1)).
Proof.
  intros Hsplit H0 H1 H2. unfold Gateway.next_version, Py.split. rewrite Hsplit.
  cbn [mbind result_bind Py.index nth_error]. rewrite H0, H1, H2.
  cbn [mbind result_bind]. unfold Gateway.bump.
  now destruct (Py.eq_str kind "minor").
Qed.

Lemma version_step_truthy (updates : json) (d : Dict.t) (kind : json)
    (version new_version : string) :
  Py.get updates "version_increment" JNull = Ok kind ->
  Py.truthy kind = true ->
  Dict.get "version" d = Some (JString version) ->
  Gateway.next_version (JString version) kind = Ok new_version ->
  Gateway.version_step updates (JObject d) =
  Ok (JObject (Dict.set "version" (JString new_version) d),
      ["Version: " +:+ version +:+ " -> " +:+ new_version]).
Proof.
  intros Hkind Htruthy Hversion Hnext.
  assert (Py.get (JObject d) "version" (JString "1.0.0") = Ok (JString version)) as Hold
    by (unfold Py.get; now rewrite Hversion).
  unfold Gateway.version_step. rewrite Hold.
  cbn [mbind result_bind]. rewrite Hkind. cbn [mbind result_bind].
  rewrite Htruthy, Hnext. reflexivity.
Qed.

(** C2 (amended).  For every document and every payload whose
    [version_increment] is [kind] ([None] when the payload has none):

    - when [kind] is falsy (absent, or present as the empty string, [null],
      [false], a zero, an empty list or an empty object), the version step
      leaves the document as it is and records nothing, whatever the
      version field holds;
    - when [kind] is truthy and the first three components of the version
      string between dots are integer literals as [int] reads them, the
      version is set to major.(minor+1).0 when [kind] is "minor" and to
      major.minor.(patch+1) otherwise, each number written as [str] writes
      it, and the one change entry "Version: old -> new" is recorded;
    - in particular, for a version that is three dot-joined numerals
      [a.b.c] the new version is [a.(b+1).0] or [a.b.(c+1)]. *)
Theorem version_increment_rule (updates : json) (d : Dict.t) (kind : json) :
  Py.get updates "version_increment" JNull = Ok kind ->
  (Py.truthy kind = false ->
   Gateway.version_step updates (JObject d) = Ok (JObject d, [])) /\
  (Py.truthy kind = true ->
   forall (version p0 p1 p2 : string) (more : list string) (major minor patch : Z),
     Dict.get "version" d = Some (JString version) ->
     PyStr.split "." version = p0 :: p1 :: p2 :: more ->
     Py.int p0 = Ok major -> Py.int p1 = Ok minor -> Py.int p2 = Ok patch ->
     let new_version :=
       if Py.eq_str kind "minor"
       then Py.str_int major +:+ "." +:+ Py.str_int (minor + 1) +:+ "." +:+ Py.str_int 0
       else Py.str_int major +:+ "." +:+ Py.str_int minor +:+ "."
            +:+ Py.str_int (patch + 1) in
     Gateway.version_step updates (JObject d) =
     Ok (JObject (Dict.set "version" (JString new_version) d),
         ["Version: " +:+ version +:+ " -> " +:+ new_version])) /\
  (Py.truthy kind = true ->
   forall a b c : N,
     Dict.get "version" d = Some (JString (dotted a b c)) ->
     let new_version :=
       if Py.eq_str kind "minor" then dotted a (b + 1) 0 else dotted a b (c + 1) in
     Gateway.version_step updates (JObject d) =
     Ok (JObject (Dict.set "version" (JString new_version) d),
         ["Version: " +:+ dotted a b c +:+ " -> " +:+ new_version])).
Proof.
  intros Hkind. split_and!.
  - intros Hfalsy. unfold Gateway.version_step. cbn [Py.get mbind result_bind].
    rewrite Hkind. cbn [mbind result_bind]. now rewrite Hfalsy.
  - intros Htruthy version p0 p1 p2 more major minor patch Hversion Hsplit H0 H1 H2
      new_version.
    apply (version_step_truthy updates d kind); try assumption.
    now apply (next_version_parts version p0 p1 p2 more).
  - intros Htruthy a b c Hversion new_version.
    apply (version_step_truthy updates d kind); try assumption.
    apply next_version_dotted.
Qed.

(** C9 (amended).  On every version string with exactly three components
    between dots, and for every increment kind, the Gateway's rule and
    [increment_version] give the same result: the same new version string,
    or the same exception when a component is not an integer. *)
Theorem version_rules_agree (version : string) (kind : json) :
  List.length (PyStr.split "." version) = 3%nat ->
  JString <$> Gateway.next_version (JString version) kind =
  Batch.increment_version (JString version) kind.
Proof.
  intros Hlen.
  unfold Gateway.next_version, Batch.increment_version, Py.split.
  cbn [mbind result_bind]. rewrite Hlen. cbn [Nat.eqb].
  destruct (PyStr.split "." version) as [|p0 [|p1 [|p2 [|]]]]; try discriminate.
  cbn [Py.index nth_error mbind result_bind].
  destruct (Py.int p0) as [major|]; [|reflexivity].
  destruct (Py.int p1) as [minor|]; [|reflexivity].
  destruct (Py.int p2) as [patch|]; [|reflexivity].
  cbn [mbind result_bind fmap result_fmap]. unfold Gateway.bump.
  now destruct (Py.eq_str kind "minor").
Qed.

End VersionRule.

(** ** Reading and writing the configured file *)

Section Files.
Context {env : PyEnv}.

Lemma validate_spec w :
  Gateway._validate_file_access w =
  (Ok (match files w !! ALLOWED_CONFIG_FILE with Some (File _) => true | _ => false end),
   probed w).
Proof. reflexivity. Qed.

Lemma read_text_spec path w :
  Sys.read_text path w =
  (match files w !! path with
   | Some (File content) =>
       if Sys.utf8_valid content then Ok (Sys.universal_newlines content)
       else Raise UnicodeDecodeError
   | Some Dir => Raise (IsADirectoryError path)
   | None => Sys.no_such_file path
   end, Sys.accessed (Open path "r") w).
Proof.
  unfold Sys.read_text, Sys.open_read. unfold_m.
  destruct (files w !! path) as [[content|]|]; try reflexivity.
  now destruct (Sys.utf8_valid content).
Qed.

Lemma read_config_spec w :
  Gateway._read_config w =
  match files w !! ALLOWED_CONFIG_FILE with
  | Some (File content) =>
      (if Sys.utf8_valid content then Sys.loads (Sys.universal_newlines content)
       else Raise UnicodeDecodeError, read w)
  | _ => (Raise Gateway.not_found, probed w)
  end.
Proof.
  unfold Gateway._read_config. unfold_m. rewrite validate_spec.
  destruct (files w !! ALLOWED_CONFIG_FILE) as [[content|]|] eqn:E; cbn [negb]; try reflexivity.
  rewrite read_text_spec. cbn [files probed Sys.accessed]. rewrite E.
  now destruct (Sys.utf8_valid content).
Qed.

Lemma read_config_ok w content doc :
  holds w content doc -> Gateway._read_config w = (Ok doc, read w).
Proof.
  intros (Hf & Hu & Hl). rewrite read_config_spec, Hf, Hu.
  unfold Sys.loads. now rewrite Hl.
Qed.

Lemma read_config_inv w doc w' :
  Gateway._read_config w = (Ok doc, w') ->
  w' = read w /\ exists content, holds w content doc.
Proof.
  rewrite read_config_spec.
  destruct (files w !! ALLOWED_CONFIG_FILE) as [[content|]|] eqn:E; try discriminate.
  intros [= Hr <-]. split; [reflexivity|].
  exists content. unfold holds. rewrite E.
  destruct (Sys.utf8_valid content); [|discriminate].
  unfold Sys.loads in Hr. destruct (json_loads _); [|discriminate].
  now inversion Hr.
Qed.

Lemma read_config_files w : files (Gateway._read_config w).2 = files w.
Proof.
  rewrite read_config_spec.
  now destruct (files w !! ALLOWED_CONFIG_FILE) as [[content|]|].
Qed.

(** The outcomes of [_write_config], by what the file system holds. *)
Lemma write_config_cases config backup w :
  let '(r, w') := Gateway._write_config config backup w in
  match files w !! ALLOWED_CONFIG_FILE with
  | Some (File content) =>
      if backup then
        if Sys.utf8_valid content then
          match files w !! backup_path w with
          | Some Dir =>
              r = Raise (IsADirectoryError (backup_path w)) /\ files w' = files w
          | _ =>
              r = Ok ("Config saved. Backup: " +:+ backup_path w) /\
              files w' =
                <[ALLOWED_CONFIG_FILE := File (encode (json_dumps config))]>
                  (<[backup_path w := File (encode (Sys.universal_newlines content))]>
                     (files w))
          end
        else r = Raise UnicodeDecodeError /\ files w' = files w
      else
        r = Ok "Config saved. Backup: None" /\
        files w' = <[ALLOWED_CONFIG_FILE := File (encode (json_dumps config))]> (files w)
  | _ => r = Raise Gateway.not_found /\ files w' = files w
  end.
Proof.
  unfold Gateway._write_config. unfold_m. rewrite validate_spec.
  destruct (files w !! ALLOWED_CONFIG_FILE) as [[content|]|] eqn:E; cbn [negb];
    try (split; reflexivity).
  destruct backup.
  - cbn [Sys.now]. rewrite read_text_spec.
    cbn [files probed Sys.accessed Sys.ticked]. rewrite E.
    destruct (Sys.utf8_valid content); [|split; reflexivity].
    unfold Sys.write_text at 1.
    cbn [files clock ticks probed Sys.accessed Sys.ticked]. fold (backup_path w).
    assert (forall fs : gmap string node,
              fs !! ALLOWED_CONFIG_FILE = Some (File content) ->
              forall text,
                <[backup_path w := File text]> fs !! ALLOWED_CONFIG_FILE <> Some Dir)
      as Hstill.
    { intros fs Hfs text.
      destruct (decide (backup_path w = ALLOWED_CONFIG_FILE)) as [Heq|Hne].
      - rewrite Heq, lookup_insert_eq. discriminate.
      - rewrite lookup_insert_ne, Hfs by assumption. discriminate. }
    specialize (Hstill (files w) E (encode (Sys.universal_newlines content))).
    unfold encode in Hstill.
    destruct (files w !! backup_path w) as [[bk|]|] eqn:Eb;
      [|split; reflexivity|];
      unfold Sys.write_text; cbn [files Sys.with_files Sys.accessed];
      change (files (Sys.ticked (probed w))) with (files w);
      destruct (<[backup_path w := _]> (files w) !! ALLOWED_CONFIG_FILE) as [[?|]|];
      try congruence; split; reflexivity.
  - unfold Sys.write_text. cbn [files probed Sys.accessed]. rewrite E.
    split; reflexivity.
Qed.

End Files.

(** ** The merge *)

Section Dicts.

Lemma get_set_eq k v d : Dict.get k (Dict.set k v d) = Some v.
Proof.
  induction d as [|[k' v'] d IH]; simpl.
  - now rewrite String.eqb_refl.
  - destruct (String.eqb k k') eqn:E; simpl.
    + now rewrite String.eqb_refl.
    + now rewrite E.
Qed.

Lemma get_set_ne k k' v d : k <> k' -> Dict.get k' (Dict.set k v d) = Dict.get k' d.
Proof.
  intros Hne. induction d as [|[k0 v0] d IH]; simpl.
  - destruct (String.eqb_spec k' k); [congruence | reflexivity].
  - destruct (String.eqb_spec k k0) as [->|Hk]; simpl.
    + destruct (String.eqb_spec k' k0); [congruence | reflexivity].
    + destruct (String.eqb_spec k' k0); [reflexivity | apply IH].
Qed.

End Dicts.

Section Merge.
Context {env : PyEnv}.













End Merge.

(** ** The apply operation *)

Section Apply.
Context {env : PyEnv}.

Lemma version_step_inv updates config config' changes :
  Gateway.version_step updates config = Ok (config', changes) ->
  exists d d', config = JObject d /\ config' = JObject d' /\
    (d' = d \/ exists v, d' = Dict.set "version" v d).
Proof.
  unfold Gateway.version_step.
  destruct config as [| | | | | |d]; try discriminate.
  cbn [Py.get mbind result_bind].
  destruct (Py.get updates "version_increment" JNull) as [increment|]; [|discriminate].
  cbn [mbind result_bind].
  destruct (Py.truthy increment).
  - destruct (Gateway.next_version _ increment) as [new_version|]; [|discriminate].
    cbn [mbind result_bind Py.setitem]. intros [= <- <-].
    exists d, (Dict.set "version" (JString new_version) d). eauto.
  - intros [= <- <-]. exists d, d. auto.
Qed.




Lemma write_config_ok config backup w result w' :
  Gateway._write_config config backup w = (Ok result, w') ->
  files w' !! ALLOWED_CONFIG_FILE = Some (File (encode (json_dumps config))).
Proof.
  intros H. pose proof (write_config_cases config backup w) as C. rewrite H in C.
  repeat match type of C with
         | context [match ?x with _ => _ end] => destruct x
         end;
    destruct C as [C1 C2]; try discriminate; rewrite C2; apply lookup_insert_eq.
Qed.

Lemma write_config_raise config backup w e w' :
  Gateway._write_config config backup w = (Raise e, w') -> files w' = files w.
Proof.
  intros H. pose proof (write_config_cases config backup w) as C. rewrite H in C.
  repeat match type of C with
         | context [match ?x with _ => _ end] => destruct x
         end;
    destruct C as [C1 C2]; try discriminate; exact C2.
Qed.

(** A confirmed call always returns a text; it either leaves every file as
    it was or has gone through the whole of [applied]. *)
Lemma apply_confirmed_cases params w :
  Gateway.user_confirmed params = true ->
  exists text w',
    Gateway.roi_config_apply params w = (Ok text, w') /\
    (files w' = files w \/ applied params w w' text).
Proof.
  intros Hc. unfold Gateway.roi_config_apply. rewrite Hc. cbn [negb].
  unfold try_except, Gateway.error_text.
  unfold mbind at 1, M_bind at 1, lift at 1.
  destruct (Sys.loads (Gateway.updates_json params)) as [updates|e] eqn:Hparse;
    [|unfold_m; eauto].
  unfold mbind at 1, M_bind at 1.
  destruct (Gateway._read_config w) as [[config|e] w1] eqn:Hread.
  2: { pose proof (read_config_files w) as Hfiles. rewrite Hread in Hfiles.
       unfold_m. eauto. }
  apply read_config_inv in Hread as [-> [content Hholds]].
  unfold mbind at 1, M_bind at 1, lift at 1.
  destruct (Gateway.version_step updates config) as [[c1 ch1]|e] eqn:Hversion;
    [|unfold_m; eauto].
  pose proof Hversion as (d & d1 & -> & -> & _)%version_step_inv.
  unfold mbind at 1, M_bind at 1. cbn [Sys.now].
  unfold mbind at 1, M_bind at 1, lift at 1. cbn [Py.setitem].
  change (JString (Sys.strftime _ "%Y-%m-%dT%H:%M:%SZ")) with (stamp w).
  unfold mbind at 1, M_bind at 1, lift at 1.
  destruct (Gateway.apply_category updates "gpuTypes_updates" _ _ _ ch1)
    as [[c3 ch3]|e] eqn:Hgpu; [|unfold_m; eauto].
  unfold mbind at 1, M_bind at 1, lift at 1.
  destruct (Gateway.apply_category updates "modelArchitectures_updates" _ _ _ ch3)
    as [[c4 ch4]|e] eqn:Hmodel; [|unfold_m; eauto].
  unfold mbind at 1, M_bind at 1.
  destruct (Gateway._write_config c4 (Gateway.create_backup params) (Sys.ticked (read w)))
    as [[result|e] w'] eqn:Hwrite.
  - unfold_m. do 2 eexists. split; [reflexivity|]. right.
    econstructor; eauto.
  - unfold_m. do 2 eexists. split; [reflexivity|]. left.
    now apply write_config_raise in Hwrite.
Qed.



Lemma apply_unconfirmed (params : Gateway.ApplyUpdateInput) (w : world) :
  Gateway.user_confirmed params = false ->
  Gateway.roi_config_apply params w =
  (Ok "ERROR: Set user_confirmed=True to proceed", w).
Proof. intros Hc. unfold Gateway.roi_config_apply. now rewrite Hc. Qed.

(** C1.  Without confirmation the apply operation returns the literal
    confirmation-required text, whatever the payload, the backup flag and
    the parser, and leaves the world as it was: the files are unchanged, no
    path is tested and no file is opened (the list of accesses is the same),
    and the payload is not parsed. *)
Theorem apply_requires_confirmation (params : Gateway.ApplyUpdateInput) (w : world) :
  Gateway.user_confirmed params = false ->
  Gateway.roi_config_apply params w =
  (Ok "ERROR: Set user_confirmed=True to proceed", w).
Proof.
  intros Hc. unfold Gateway.roi_config_apply.
  destruct (Gateway.user_confirmed params); [discriminate | reflexivity].
Qed.





(** What a confirmed call with an empty payload does: it writes the
    document it read with [lastUpdated] set, after copying the text of the
    file to the backup path when a backup is asked for. *)
Lemma apply_empty_payload (params : Gateway.ApplyUpdateInput) (w : world)
    (content : string) (d : Dict.t) :
  Gateway.user_confirmed params = true ->
  Sys.loads (Gateway.updates_json params) = Ok (JObject []) ->
  holds w content (JObject d) ->
  (Gateway.create_backup params = true ->
   files w !! backup_path (Sys.ticked w) <> Some Dir) ->
  let written := JObject (Dict.set "lastUpdated" (stamp w) d) in
  exists text w',
    Gateway.roi_config_apply params w = (Ok text, w') /\
    files w' =
      <[ALLOWED_CONFIG_FILE := File (encode (json_dumps written))]>
        (if Gateway.create_backup params
         then <[backup_path (Sys.ticked w) :=
                  File (encode (Sys.universal_newlines content))]> (files w)
         else files w).
Proof.
  intros Hc Hparse Hholds Hbackup written.
  unfold Gateway.roi_config_apply. rewrite Hc. cbn [negb].
  unfold try_except.
  unfold mbind at 1, M_bind at 1, lift at 1. rewrite Hparse.
  unfold mbind at 1, M_bind at 1. rewrite (read_config_ok _ _ _ Hholds).
  unfold mbind at 1, M_bind at 1, lift at 1.
  unfold Gateway.version_step. cbn [Py.get Dict.get mbind result_bind Py.truthy].
  unfold mbind at 1, M_bind at 1. cbn [Sys.now].
  unfold mbind at 1, M_bind at 1, lift at 1. cbn [Py.setitem].
  change (JString (Sys.strftime _ "%Y-%m-%dT%H:%M:%SZ")) with (stamp w).
  fold written.
  unfold mbind at 1, M_bind at 1, lift at 1.
  unfold Gateway.apply_category at 1.
  cbn [Py.get Dict.get mbind result_bind Py.items Gateway.apply_entries].
  unfold mbind at 1, M_bind at 1, lift at 1.
  unfold Gateway.apply_category at 1.
  cbn [Py.get Dict.get mbind result_bind Py.items Gateway.apply_entries].
  unfold mbind at 1, M_bind at 1.
  pose proof (write_config_cases written (Gateway.create_backup params)
                (Sys.ticked (read w))) as C.
  destruct (Gateway._write_config written (Gateway.create_backup params)
              (Sys.ticked (read w))) as [r w'].
  change (files (Sys.ticked (read w))) with (files w) in C.
  change (backup_path (Sys.ticked (read w))) with (backup_path (Sys.ticked w)) in C.
  destruct Hholds as (Hfile & Hvalid & _). rewrite Hfile in C.
  destruct (Gateway.create_backup params).
  - rewrite Hvalid in C. specialize (Hbackup eq_refl).
    destruct (files w !! backup_path (Sys.ticked w)) as [[bk|]|];
      [|congruence|]; destruct C as [-> Hfiles]; unfold_m; eauto.
  - destruct C as [-> Hfiles]. unfold_m. eauto.
Qed.

Lemma backup_path_fresh (w : world) : backup_path w <> ALLOWED_CONFIG_FILE.
Proof.
  intros Heq. apply (f_equal String.length) in Heq.
  unfold backup_path in Heq. rewrite !length_append in Heq.
  cbn [String.length] in Heq. lia.
Qed.

(** The copy is the file itself when it has no carriage return and lines
    end with a line feed on the platform. *)
Lemma universal_newlines_without_cr (content : string) :
  all_chars (fun c => negb (Ascii.eqb c (ascii_of_nat 13))) content = true ->
  Sys.universal_newlines content = content.
Proof.
  induction content as [|c content IH]; [reflexivity|].
  rewrite all_chars_cons. intros [Hc Hrest]%andb_true_iff.
  apply negb_true_iff in Hc. cbn [Sys.universal_newlines]. rewrite Hc.
  now rewrite IH.
Qed.

Lemma write_newlines_lf (text : string) : Sys.write_newlines nl text = text.
Proof.
  induction text as [|c text IH]; [reflexivity|].
  cbn [Sys.write_newlines]. rewrite IH.
  destruct (Ascii.eqb_spec c (ascii_of_nat 10)) as [->|]; reflexivity.
Qed.

Lemma apply_empty_payload_verbatim (params : Gateway.ApplyUpdateInput) (w : world)
    (content : string) (d : Dict.t) :
  Gateway.user_confirmed params = true ->
  Gateway.create_backup params = true ->
  Sys.loads (Gateway.updates_json params) = Ok (JObject []) ->
  holds w content (JObject d) ->
  files w !! backup_path (Sys.ticked w) <> Some Dir ->
  os_linesep = nl ->
  all_chars (fun c => negb (Ascii.eqb c (ascii_of_nat 13))) content = true ->
  files (Gateway.roi_config_apply params w).2 !! backup_path (Sys.ticked w)
  = Some (File content).
Proof.
  intros Hc Hb Hparse Hholds Hdir Hlf Hcr.
  destruct (apply_empty_payload params w content d Hc Hparse Hholds (fun _ => Hdir))
    as (text & w' & -> & Hfiles).
  cbn [snd]. rewrite Hfiles, Hb.
  rewrite lookup_insert_ne by (intros Heq; symmetry in Heq; now apply backup_path_fresh in Heq).
  rewrite lookup_insert_eq. unfold encode.
  now rewrite Hlf, write_newlines_lf, universal_newlines_without_cr.
Qed.

(** *** The read operation *)

(** C7.  For every document, a read of the section "metadata" selects as
    its data exactly the object with the two fields [version] and
    [lastUpdated] of the document ([None] for a field the document lacks),
    and returns that object rendered in the format asked for: inside the
    JSON envelope next to the file hash, or after the header of the
    digest. *)
Theorem read_metadata (params : Gateway.ReadConfigInput) (w : world)
    (content : string) (d : Dict.t) :
  Gateway.section params = Some "metadata" ->
  holds w content (JObject d) ->
  let version := default JNull (Dict.get "version" d) in
  let lastUpdated := default JNull (Dict.get "lastUpdated" d) in
  let data := JObject [("version", version); ("lastUpdated", lastUpdated)] in
  Gateway.select_data (JObject d) (Gateway.section params) = Ok (Some data) /\
  (Gateway.roi_config_read params w).1 =
  Ok match Gateway.response_format params with
     | Gateway.JSON =>
         json_dumps
           (JObject [("file_hash",
                      JString (PyStr.take_chars 12 (sha256_hexdigest content)));
                     ("data", data)])
     | Gateway.MARKDOWN =>
         "# ROI Config" +:+ nl +:+ "Version: " +:+ Py.str version +:+ nl
         +:+ PyStr.take_chars 3000 (json_dumps data)
     end.
Proof.
  intros Hsection Hholds version lastUpdated data.
  assert (Gateway.select_data (JObject d) (Gateway.section params) = Ok (Some data))
    as Hselect.
  { rewrite Hsection. unfold Gateway.select_data, Py.get.
    cbn [String.eqb Ascii.eqb Bool.eqb mbind result_bind].
    subst data version lastUpdated.
    now destruct (Dict.get "version" d), (Dict.get "lastUpdated" d). }
  split; [exact Hselect|].
  unfold Gateway.roi_config_read, try_except.
  unfold mbind at 1, M_bind at 1. rewrite (read_config_ok _ _ _ Hholds).
  unfold mbind at 1, M_bind at 1.
  destruct Hholds as (Hfile & _ & _).
  assert (exists w1, Gateway._get_file_hash (read w)
          = (Ok (PyStr.take_chars 12 (sha256_hexdigest content)), w1)) as [w1 ->].
  { unfold Gateway._get_file_hash. unfold_m. rewrite validate_spec.
    cbn [files read probed Sys.accessed]. rewrite Hfile.
    cbn [negb]. unfold Sys.read_bytes, Sys.open_read.
    cbn [files read probed Sys.accessed]. rewrite Hfile. eauto. }
  unfold mbind at 1, M_bind at 1, lift at 1. rewrite Hselect.
  unfold lift, Gateway.render.
  destruct (Gateway.response_format params); [|reflexivity].
  unfold Py.get. cbn [mbind result_bind]. subst version.
  now destruct (Dict.get "version" d).
Qed.

End Apply.

(** ** The Batch Updater *)

Section BatchRun.
Context {env : PyEnv}.

(** The prompt template holds the braces of its JSON sample as they are, so
    formatting it looks a field up under the name that follows the first of
    them, whatever the date and the version are. *)
Lemma prompt_format_fails (date version : string) :
  Format.format Batch.UPDATE_PROMPT [("date", date); ("version", version)] =
  Raise (KeyError (nl +:+ "  " +:+ dq +:+ "version_increment" +:+ dq)).
Proof. vm_compute. reflexivity. Qed.

Lemma get_claude_updates_raises (config : json) (w : world) :
  exists e w',
    Batch.get_claude_updates config w = (Raise e, w') /\ files w' = files w.
Proof.
  unfold Batch.get_claude_updates. unfold_m.
  destruct Anthropic_init as [e|]; [eauto|].
  world_simpl.
  destruct (Py.get config "version" (JString "unknown")) as [version|e]; [|eauto].
  rewrite prompt_format_fails. eauto.
Qed.

Lemma main_fails (w : world) :
  Batch.exit_status (Batch.main w).1 = 1 /\ files (Batch.main w).2 = files w.
Proof.
  unfold Batch.main. unfold_m. world_simpl.
  destruct (files w !! Batch.CONFIG_FILE) as [node|] eqn:E; cbn [negb];
    [|split; reflexivity].
  rewrite read_text_spec. world_simpl. rewrite E.
  destruct node as [content|]; [|split; reflexivity].
  destruct (Sys.utf8_valid content); [|split; reflexivity].
  destruct (Sys.loads _) as [config|]; [|split; reflexivity].
  destruct (Py.get config "version" (JString "unknown")) as [version|];
    [|split; reflexivity].
  match goal with
  | |- context [Batch.get_claude_updates config ?w0] =>
      destruct (get_claude_updates_raises config w0) as (e & w' & -> & Hfiles)
  end.
  split; [reflexivity | exact Hfiles].
Qed.

Lemma split_go_nonempty sep skip piece s : PyStr.split_go sep skip piece s <> [].
Proof.
  revert skip piece. induction s as [|c s IH]; intros skip piece; [discriminate|].
  cbn [PyStr.split_go]. destruct skip; [|apply IH].
  destruct (String.prefix sep (String c s)); [discriminate | apply IH].
Qed.

Lemma split_go_contains sep piece s :
  sep <> "" -> PyStr.contains sep s = true ->
  exists a b rest, PyStr.split_go sep 0 piece s = a :: b :: rest.
Proof.
  intros Hsep. revert piece. induction s as [|c s IH]; intros piece.
  - destruct sep; [congruence | discriminate].
  - cbn [PyStr.contains PyStr.split_go].
    destruct (String.prefix sep (String c s)).
    + intros _.
      destruct (PyStr.split_go sep (String.length sep - 1) "" s) as [|b rest] eqn:E;
        [now apply split_go_nonempty in E | eauto].
    + cbn [orb]. apply IH.
Qed.

Lemma json_str_total (response_text : string) :
  exists s, Batch.json_str response_text = Ok s.
Proof.
  unfold Batch.json_str.
  destruct (PyStr.contains "```json" response_text) eqn:E; [|eauto].
  apply (split_go_contains _ "") in E as (a & b & rest & E); [|discriminate].
  unfold PyStr.split. rewrite E. cbn [Py.index nth_error mbind result_bind].
  destruct (PyStr.split_go "```" 0 "" b) as [|x xs] eqn:E';
    [now apply split_go_nonempty in E' | eauto].
Qed.

Lemma parse_response_fails (response_text s doc : string) (w : world) :
  Batch.json_str response_text = Ok s ->
  json_loads (PyStr.strip s) = Raise (JSONDecodeError doc) ->
  Batch.parse_response response_text w =
  (Ok JNull,
   Sys.printed ("Failed to parse response: "
                +:+ Py.str_exn (JSONDecodeError doc)) w).
Proof.
  intros Hs Hloads. unfold Batch.parse_response. unfold_m.
  rewrite Hs. unfold Sys.loads. rewrite Hloads. reflexivity.
Qed.

Lemma finish_without_updates (config updates : json) (w : world) :
  Py.truthy updates = false ->
  Batch.finish config updates w =
  (Ok 1, Sys.printed "Failed to get updates from Claude API" w).
Proof. intros H. unfold Batch.finish. now rewrite H. Qed.


(** C8.  For every response whose JSON part does not parse, that is, on
    which [json.loads] raises [json.JSONDecodeError]: reading the response
    prints a failure line with the text of the exception and gives [None];
    with that the run prints a second failure line and returns 1, and no
    file is written.  And every run of [main], whatever the response, ends
    with status 1 and with every file as it was. *)
Theorem unparsable_response_fails (response_text s doc : string) (config : json)
    (w : world) :
  Batch.json_str response_text = Ok s ->
  json_loads (PyStr.strip s) = Raise (JSONDecodeError doc) ->
  (Batch.parse_response response_text ≫= Batch.finish config) w =
  (Ok 1,
   Sys.printed "Failed to get updates from Claude API"
     (Sys.printed ("Failed to parse response: "
                   +:+ Py.str_exn (JSONDecodeError doc)) w)) /\
  (forall w0, Batch.exit_status (Batch.main w0).1 = 1 /\
              files (Batch.main w0).2 = files w0).
Proof.
  intros Hs Hloads. split; [|apply main_fails].
  unfold mbind at 1, M_bind.
  rewrite (parse_response_fails _ _ _ _ Hs Hloads).
  now rewrite finish_without_updates.
Qed.

Lemma apply_updates_bumps (d u : Dict.t) (kind new_version : json) (w : world) :
  u <> [] ->
  Dict.get "version_increment" u = Some kind ->
  Py.truthy kind = true ->
  Batch.increment_version (default (JString "1.0.0") (Dict.get "version" d)) kind
  = Ok new_version ->
  Batch.apply_updates (JObject d) (JObject u) w =
  (Ok (JObject (Dict.set "lastUpdated" (stamp w) (Dict.set "version" new_version d)),
       true),
   Sys.ticked
     (Sys.printed
        ("Version: " +:+ Py.str (default (JString "1.0.0") (Dict.get "version" d))
         +:+ " -> " +:+ Py.str new_version) w)).
Proof.
  intros Hu Hkind Htruthy Hnew. unfold Batch.apply_updates.
  assert (Py.truthy (JObject u) = true) as -> by now destruct u.
  cbn [negb]. unfold_m. unfold Py.get. rewrite Hkind, Htruthy.
  change (match Dict.get "version" d with Some v => v | None => JString "1.0.0" end)
    with (default (JString "1.0.0") (Dict.get "version" d)).
  rewrite Hnew. reflexivity.
Qed.

Lemma apply_updates_stamps (d u : Dict.t) (w : world) :
  u <> [] ->
  Py.truthy (default JNull (Dict.get "version_increment" u)) = false ->
  Batch.apply_updates (JObject d) (JObject u) w =
  (Ok (JObject (Dict.set "lastUpdated" (stamp w) d), false), Sys.ticked w).
Proof.
  intros Hu Hfalsy. unfold Batch.apply_updates.
  assert (Py.truthy (JObject u) = true) as -> by now destruct u.
  cbn [negb]. unfold_m. unfold Py.get.
  change (match Dict.get "version_increment" u with Some v => v | None => JNull end)
    with (default JNull (Dict.get "version_increment" u)).
  rewrite Hfalsy. reflexivity.
Qed.

Lemma finish_without_increment (d u : Dict.t) (w : world) :
  u <> [] ->
  Py.truthy (default JNull (Dict.get "version_increment" u)) = false ->
  exists w', Batch.finish (JObject d) (JObject u) w = (Ok 0, w') /\ files w' = files w.
Proof.
  intros Hu Hfalsy. unfold Batch.finish.
  assert (Py.truthy (JObject u) = true) as -> by now destruct u.
  unfold mbind at 1, M_bind at 1, lift at 1. cbn [Py.get].
  unfold mbind at 1, M_bind at 1. cbn [Sys.print].
  unfold mbind at 1, M_bind at 1.
  rewrite apply_updates_stamps by assumption.
  unfold_m. cbn [Sys.print]. eauto.
Qed.

Lemma finish_with_increment (d u : Dict.t) (kind new_version : json) (w : world) :
  u <> [] ->
  Dict.get "version_increment" u = Some kind ->
  Py.truthy kind = true ->
  Batch.increment_version (default (JString "1.0.0") (Dict.get "version" d)) kind
  = Ok new_version ->
  files w !! Batch.CONFIG_FILE <> Some Dir ->
  exists w',
    Batch.finish (JObject d) (JObject u) w = (Ok 0, w') /\
    files w' =
      <[Batch.CONFIG_FILE :=
          File (encode (json_dumps
                  (JObject (Dict.set "lastUpdated" (stamp w)
                              (Dict.set "version" new_version d)))))]> (files w).
Proof.
  intros Hu Hkind Htruthy Hnew Hdir. unfold Batch.finish.
  assert (Py.truthy (JObject u) = true) as -> by now destruct u.
  unfold mbind at 1, M_bind at 1, lift at 1. cbn [Py.get].
  unfold mbind at 1, M_bind at 1. cbn [Sys.print].
  unfold mbind at 1, M_bind at 1.
  rewrite (apply_updates_bumps d u kind new_version) by assumption.
  unfold_m. unfold Sys.write_text. world_simpl.
  destruct (files w !! Batch.CONFIG_FILE) as [[content|]|];
    [|congruence|]; eexists; split; reflexivity.
Qed.

(** X29.  Lines 104-118 of [main], which receive what [get_claude_updates]
    has returned.  For a document [d] and a JSON object [u] as that value:
    an empty object counts as a failed fetch (status 1, nothing written);
    an object without a truthy [version_increment] is not written (status
    0); an object with a truthy [version_increment] has the version set by
    [increment_version] and [lastUpdated] set to the reading of the clock,
    and is written to the file, without backup or confirmation (status
    0). *)
Theorem finish_cases (d u : Dict.t) (w : world) :
  let r := Batch.finish (JObject d) (JObject u) w in
  (u = [] -> r.1 = Ok 1 /\ files r.2 = files w) /\
  (u <> [] ->
   Py.truthy (default JNull (Dict.get "version_increment" u)) = false ->
   r.1 = Ok 0 /\ files r.2 = files w) /\
  (forall kind new_version,
     u <> [] ->
     Dict.get "version_increment" u = Some kind ->
     Py.truthy kind = true ->
     Batch.increment_version (default (JString "1.0.0") (Dict.get "version" d)) kind
     = Ok new_version ->
     files w !! Batch.CONFIG_FILE <> Some Dir ->
     r.1 = Ok 0 /\
     files r.2 =
       <[Batch.CONFIG_FILE :=
           File (encode (json_dumps
                   (JObject (Dict.set "lastUpdated" (stamp w)
                               (Dict.set "version" new_version d)))))]> (files w)).
Proof.
  cbn zeta. split_and!.
  - intros ->. now rewrite finish_without_updates.
  - intros Hu Hfalsy.
    destruct (finish_without_increment d u w Hu Hfalsy) as (w' & -> & Hfiles).
    now split.
  - intros kind new_version Hu Hkind Htruthy Hnew Hdir.
    destruct (finish_with_increment d u kind new_version w Hu Hkind Htruthy Hnew Hdir)
      as (w' & -> & Hfiles).
    now split.
Qed.

End BatchRun.

(** ** The tool boundary *)

Section Boundary.
Context {env : PyEnv}.

(** [roi_config_read] and [roi_config_apply] hand every exception back as a
    text. *)
Lemma read_never_raises (params : Gateway.ReadConfigInput) (w : world) :
  exists text, (Gateway.roi_config_read params w).1 = Ok text.
Proof.
  unfold Gateway.roi_config_read, try_except.
  match goal with |- context [let (_, _) := ?body w in _] => destruct (body w) as [[text|e] w'] end;
    cbn [fst]; eauto.
Qed.

Lemma apply_never_raises (params : Gateway.ApplyUpdateInput) (w : world) :
  exists text, (Gateway.roi_config_apply params w).1 = Ok text.
Proof.
  destruct (Gateway.user_confirmed params) eqn:Hc.
  - destruct (apply_confirmed_cases params w Hc) as (text & w' & -> & _). eauto.
  - rewrite apply_unconfirmed by assumption. eauto.
Qed.

(** [roi_config_research] and [roi_config_status] have no handler: what
    [_read_config] raises leaves them as it is. *)
Lemma research_raises (params : Gateway.UpdatePreviewInput) (w : world) (e : exn) :
  (Gateway._read_config w).1 = Raise e ->
  (Gateway.roi_config_research params w).1 = Raise e.
Proof.
  unfold Gateway.roi_config_research.
  unfold mbind at 1, M_bind at 1.
  destruct (Gateway._read_config w) as [[config|e'] w']; cbn [fst]; [discriminate|].
  now intros [= ->].
Qed.

Lemma status_raises (w : world) (content : string) (e : exn) :
  files w !! ALLOWED_CONFIG_FILE = Some (File content) ->
  (Gateway._read_config (probed w)).1 = Raise e ->
  (Gateway.roi_config_status w).1 = Raise e.
Proof.
  intros Hfile. unfold Gateway.roi_config_status.
  unfold mbind at 1, M_bind at 1. rewrite validate_spec, Hfile.
  unfold mbind at 1, M_bind at 1.
  unfold mbind at 1, M_bind at 1.
  destruct (Gateway._read_config (probed w)) as [[config|e'] w']; cbn [fst];
    [discriminate|].
  now intros [= ->].
Qed.

End Boundary.

(** ** Worked examples *)

Section Examples.
#[local] Existing Instance Example.env.

Lemma version_increment_rule_witness :
  let minor := JObject [("version_increment", JString "minor")] in
  let patch := JObject [("version_increment", JString "patch")] in
  let zero := JObject [("version_increment", JInt 0); ("notes", JString "none")] in
  let d := [("version", JString "1.4.9"); ("hardware", JObject [])] in
  let padded := [("version", JString "01.4.9")] in
  Py.get minor "version_increment" JNull = Ok (JString "minor") /\
  Py.get patch "version_increment" JNull = Ok (JString "patch") /\
  Py.get zero "version_increment" JNull = Ok (JInt 0) /\
  Py.truthy (JString "minor") = true /\
  Py.truthy (JString "patch") = true /\
  Py.truthy (JInt 0) = false /\
  Dict.get "version" d = Some (JString (dotted 1 4 9)) /\
  Dict.get "version" padded = Some (JString "01.4.9") /\
  PyStr.split "." "01.4.9" = ["01"; "4"; "9"] /\
  Py.int "01" = Ok 1 /\ Py.int "4" = Ok 4 /\ Py.int "9" = Ok 9 /\
  Gateway.version_step minor (JObject d) =
    Ok (JObject [("version", JString "1.5.0"); ("hardware", JObject [])],
        ["Version: 1.4.9 -> 1.5.0"]) /\
  Gateway.version_step patch (JObject d) =
    Ok (JObject [("version", JString "1.4.10"); ("hardware", JObject [])],
        ["Version: 1.4.9 -> 1.4.10"]) /\
  Gateway.version_step minor (JObject padded) =
    Ok (JObject [("version", JString "1.5.0")], ["Version: 01.4.9 -> 1.5.0"]) /\
  Gateway.version_step zero (JObject d) = Ok (JObject d, []).
Proof.
  split_and!; [reflexivity .. | | | |].
  - exact (proj2 (proj2 (version_increment_rule
                           (JObject [("version_increment", JString "minor")])
                           [("version", JString "1.4.9"); ("hardware", JObject [])]
                           (JString "minor") eq_refl))
             eq_refl 1%N 4%N 9%N eq_refl).
  - exact (proj2 (proj2 (version_increment_rule
                           (JObject [("version_increment", JString "patch")])
                           [("version", JString "1.4.9"); ("hardware", JObject [])]
                           (JString "patch") eq_refl))
             eq_refl 1%N 4%N 9%N eq_refl).
  - exact (proj1 (proj2 (version_increment_rule
                           (JObject [("version_increment", JString "minor")])
                           [("version", JString "01.4.9")]
                           (JString "minor") eq_refl))
             eq_refl "01.4.9" "01" "4" "9" [] 1 4 9
             eq_refl eq_refl eq_refl eq_refl eq_refl).
  - exact (proj1 (version_increment_rule
                    (JObject [("version_increment", JInt 0); ("notes", JString "none")])
                    [("version", JString "1.4.9"); ("hardware", JObject [])]
                    (JInt 0) eq_refl)
             eq_refl).
Defined.

(** C2, as stated, fails: a payload can contain a [version_increment] that
    is not "minor" and still leave the version alone.  With the empty
    string as increment the version stays as it is, the patch part is not
    incremented and no change entry is recorded; the document written has
    only [lastUpdated] set. *)
Lemma version_increment_empty_kind :
  let updates := JObject [("version_increment", JString "")] in
  let d := [("version", JString "1.4.9")] in
  let params := {| Gateway.updates_json := Example.empty_kind_text;
                   Gateway.user_confirmed := true;
                   Gateway.create_backup := false |} in
  let run := Gateway.roi_config_apply params (stored Example.metadata_text) in
  Dict.get "version" d = Some (JString (dotted 1 4 9)) /\
  Dict.get "version_increment" [("version_increment", JString "")] = Some (JString "") /\
  Py.eq_str (JString "") "minor" = false /\
  Gateway.version_step updates (JObject d) = Ok (JObject d, []) /\
  Gateway.version_step updates (JObject d) <>
    Ok (JObject [("version", JString (dotted 1 4 10))],
        ["Version: 1.4.9 -> 1.4.10"]) /\
  json_loads Example.empty_kind_text = Ok updates /\
  run.1 = Ok (Gateway.report [] "Config saved. Backup: None") /\
  files run.2 !! Example.config_path =
    Some (File (json_dumps
                  (JObject [("version", JString "2.1.0");
                            ("lastUpdated", JString "2024-06-01T12:00:00Z");
                            ("gpuTypes",
                             JObject [("H100", JObject [("price", JInt 30000)])])]))).
Proof.
  split_and!; [reflexivity .. | discriminate | | |]; vm_compute; reflexivity.
Qed.

Lemma version_rules_agree_witness :
  List.length (PyStr.split "." "1.4.9") = 3%nat /\
  JString <$> Gateway.next_version (JString "1.4.9") (JString "minor") =
  Batch.increment_version (JString "1.4.9") (JString "minor").
Proof.
  split; [reflexivity|].
  exact (version_rules_agree "1.4.9" (JString "minor") eq_refl).
Defined.

(** C9, as stated, fails on version strings that do not have three
    components: with four the Gateway drops the fourth and bumps, the Batch
    Updater returns the string as it is; with two the Gateway raises, the
    Batch Updater returns the string as it is. *)
Lemma version_rules_differ :
  Gateway.next_version (JString "1.2.3.4") (JString "patch")
    = Ok "1.2.4" /\
  Batch.increment_version (JString "1.2.3.4") (JString "patch")
    = Ok (JString "1.2.3.4") /\
  Gateway.next_version (JString "1.2") (JString "patch")
    = Raise IndexError /\
  Batch.increment_version (JString "1.2") (JString "patch")
    = Ok (JString "1.2").
Proof. repeat split. Qed.

Lemma apply_requires_confirmation_witness :
  let params := {| Gateway.updates_json := "not JSON at all";
                   Gateway.user_confirmed := false;
                   Gateway.create_backup := true |} in
  Gateway.user_confirmed params = false /\
  Gateway.roi_config_apply params (stored Example.crlf_text) =
  (Ok "ERROR: Set user_confirmed=True to proceed", stored Example.crlf_text).
Proof.
  split; [reflexivity|].
  exact (apply_requires_confirmation
           {| Gateway.updates_json := "not JSON at all";
              Gateway.user_confirmed := false;
              Gateway.create_backup := true |}
           (stored Example.crlf_text) eq_refl).
Defined.

Lemma holds_metadata :
  holds (stored Example.metadata_text) Example.metadata_text Example.metadata_document.
Proof. split_and!; vm_compute; reflexivity. Qed.


(** C4 fails on a file kept with CR LF line ends.  A confirmed call with
    the empty payload writes the document with [lastUpdated] set and
    nothing else changed, and leaves two files, the configured one and one
    backup; but the backup holds the text with LF line ends, which is not
    what the file held. *)
Lemma backup_of_crlf_file :
  let params := {| Gateway.updates_json := "{}";
                   Gateway.user_confirmed := true;
                   Gateway.create_backup := true |} in
  let w := stored Example.crlf_text in
  let w' := (Gateway.roi_config_apply params w).2 in
  let original :=
    "{" +:+ cr +:+ nl +:+ "  " +:+ dq +:+ "version" +:+ dq +:+ ": "
    +:+ dq +:+ "1.0.0" +:+ dq +:+ cr +:+ nl +:+ "}" in
  let copy :=
    "{" +:+ nl +:+ "  " +:+ dq +:+ "version" +:+ dq +:+ ": "
    +:+ dq +:+ "1.0.0" +:+ dq +:+ nl +:+ "}" in
  files w !! Example.config_path = Some (File original) /\
  files w' !! Example.config_path =
    Some (File (json_dumps
                  (JObject [("version", JString "1.0.0");
                            ("lastUpdated", JString "2024-06-01T12:00:00Z")]))) /\
  size (files w') = 2%nat /\
  files w' !! (Example.config_path +:+ ".backup-20240601-120000") = Some (File copy) /\
  copy <> original.
Proof. split_and!; [vm_compute; reflexivity .. | discriminate]. Qed.

(** C5 fails for two of the four tools: with no file at the configured
    path [roi_config_research] raises, where [roi_config_read] and a
    confirmed [roi_config_apply] return a text; and with a file that is not
    JSON [roi_config_status] raises. *)
Lemma research_and_status_raise :
  let missing := Example.world_with ∅ in
  let not_found := "Config file not found: " +:+ Example.config_path in
  (Gateway.roi_config_research {| Gateway.categories := Some "all" |} missing).1
  = Raise (FileNotFoundError not_found) /\
  (Gateway.roi_config_read
     {| Gateway.section := None; Gateway.response_format := Gateway.MARKDOWN |}
     missing).1
  = Ok ("Error: " +:+ not_found) /\
  (Gateway.roi_config_apply
     {| Gateway.updates_json := "{}"; Gateway.user_confirmed := true;
        Gateway.create_backup := true |} missing).1
  = Ok ("Error: " +:+ not_found) /\
  (Gateway.roi_config_status (stored "not json")).1
  = Raise (JSONDecodeError "not json").
Proof. split_and!; vm_compute; reflexivity. Qed.

Lemma read_metadata_witness :
  let w := stored Example.metadata_text in
  let params := {| Gateway.section := Some "metadata";
                   Gateway.response_format := Gateway.JSON |} in
  let data := JObject [("version", JString "2.1.0");
                       ("lastUpdated", JString "2024-01-01T00:00:00Z")] in
  Gateway.section params = Some "metadata" /\
  holds w Example.metadata_text Example.metadata_document /\
  Gateway.select_data Example.metadata_document (Some "metadata") = Ok (Some data) /\
  (Gateway.roi_config_read params w).1 =
  Ok (json_dumps
        (JObject [("file_hash",
                   JString (PyStr.take_chars 12 (sha256_hexdigest Example.metadata_text)));
                  ("data", data)])).
Proof.
  split_and!; [reflexivity | exact holds_metadata | |].
  - exact (proj1 (read_metadata
                    {| Gateway.section := Some "metadata";
                       Gateway.response_format := Gateway.JSON |}
                    (stored Example.metadata_text) _ _ eq_refl holds_metadata)).
  - exact (proj2 (read_metadata
                    {| Gateway.section := Some "metadata";
                       Gateway.response_format := Gateway.JSON |}
                    (stored Example.metadata_text) _ _ eq_refl holds_metadata)).
Defined.

Lemma unparsable_response_fails_witness :
  let response := "I could not find any pricing changes this week." in
  let w := stored "{}" in
  Batch.json_str response = Ok response /\
  json_loads (PyStr.strip response) = Raise (JSONDecodeError response) /\
  (Batch.parse_response response ≫= Batch.finish (JObject [])) w =
  (Ok 1,
   Sys.printed "Failed to get updates from Claude API"
     (Sys.printed ("Failed to parse response: "
                   +:+ Py.str_exn (JSONDecodeError response)) w)) /\
  (forall w0, Batch.exit_status (Batch.main w0).1 = 1 /\
              files (Batch.main w0).2 = files w0).
Proof.
  split_and!; [reflexivity | reflexivity | |].
  - exact (proj1 (unparsable_response_fails
                    "I could not find any pricing changes this week." _ _
                    (JObject []) (stored "{}") eq_refl eq_refl)).
  - exact (proj2 (unparsable_response_fails
                    "I could not find any pricing changes this week." _
                    "I could not find any pricing changes this week."
                    (JObject []) (stored "{}") eq_refl eq_refl)).
Defined.

(** Two responses that parse to a JSON object and are not written by the
    lines that follow the request: with an object without
    [version_increment] they return 0 and the file is as before; with a
    response that fences the empty object they return 1. *)
Lemma finish_skips_write :
  let config := JObject [("version", JString "1.4.9")] in
  let w := Example.world_with {[ Batch.CONFIG_FILE := File "{}" ]} in
  let noted := (Batch.parse_response Example.notes_text ≫= Batch.finish config) w in
  let empty := (Batch.parse_response Example.fenced_empty_text ≫= Batch.finish config) w in
  Batch.parse_response Example.notes_text w = (Ok Example.notes_update, w) /\
  noted.1 = Ok 0 /\
  files noted.2 !! Batch.CONFIG_FILE = Some (File "{}") /\
  accesses noted.2 = [] /\
  Batch.parse_response Example.fenced_empty_text w = (Ok (JObject []), w) /\
  empty.1 = Ok 1 /\
  files empty.2 !! Batch.CONFIG_FILE = Some (File "{}") /\
  accesses empty.2 = [].
Proof. split_and!; vm_compute; reflexivity. Qed.

Lemma finish_cases_witness :
  let d := [("version", JString "1.4.9")] in
  let u := [("version_increment", JString "patch")] in
  let notes := [("notes", JString "no changes")] in
  let w := Example.world_with {[ Batch.CONFIG_FILE := File "{}" ]} in
  let r := Batch.finish (JObject d) (JObject u) w in
  let noted := Batch.finish (JObject d) (JObject notes) w in
  let empty := Batch.finish (JObject d) (JObject []) w in
  u <> [] /\
  Dict.get "version_increment" u = Some (JString "patch") /\
  Py.truthy (JString "patch") = true /\
  Batch.increment_version (default (JString "1.0.0") (Dict.get "version" d))
    (JString "patch") = Ok (JString "1.4.10") /\
  files w !! Batch.CONFIG_FILE <> Some Dir /\
  notes <> [] /\
  Py.truthy (default JNull (Dict.get "version_increment" notes)) = false /\
  r.1 = Ok 0 /\
  files r.2 =
    <[Batch.CONFIG_FILE :=
        File (encode (json_dumps
                (JObject (Dict.set "lastUpdated" (stamp w)
                            (Dict.set "version" (JString "1.4.10") d)))))]> (files w) /\
  noted.1 = Ok 0 /\ files noted.2 = files w /\
  empty.1 = Ok 1 /\ files empty.2 = files w.
Proof.
  intros d u notes w r noted empty.
  assert (u <> []) as Hu by discriminate.
  assert (notes <> []) as Hnotes by discriminate.
  assert (files w !! Batch.CONFIG_FILE <> Some Dir) as Hdir.
  { subst w. cbn [files Example.world_with]. rewrite lookup_singleton_eq. discriminate. }
  split_and!; [exact Hu | reflexivity | reflexivity | reflexivity | exact Hdir
              | exact Hnotes | reflexivity | | | | | |].
  - exact (proj1 (proj2 (proj2 (finish_cases d u w)) (JString "patch") (JString "1.4.10")
                    Hu eq_refl eq_refl eq_refl Hdir)).
  - exact (proj2 (proj2 (proj2 (finish_cases d u w)) (JString "patch") (JString "1.4.10")
                    Hu eq_refl eq_refl eq_refl Hdir)).
  - exact (proj1 (proj1 (proj2 (finish_cases d notes w)) Hnotes eq_refl)).
  - exact (proj2 (proj1 (proj2 (finish_cases d notes w)) Hnotes eq_refl)).
  - exact (proj1 (proj1 (finish_cases d [] w) eq_refl)).
  - exact (proj2 (proj1 (finish_cases d [] w) eq_refl)).
Defined.

End Examples.

(** * Further properties *)

Section FurtherGateway.
Context {env : PyEnv}.

Lemma get_file_hash_spec (w : world) :
  Gateway._get_file_hash w =
  match files w !! ALLOWED_CONFIG_FILE with
  | Some (File content) => (Ok (digest content), hashed w)
  | _ => (Ok "", probed w)
  end.
Proof.
  unfold Gateway._get_file_hash. unfold_m. rewrite validate_spec.
  destruct (files w !! ALLOWED_CONFIG_FILE) as [[content|]|] eqn:E; cbn [negb];
    try reflexivity.
  unfold Sys.read_bytes, Sys.open_read. cbn [files probed Sys.accessed].
  now rewrite E.
Qed.

Lemma missing_lookup (w : world) :
  missing w ->
  match files w !! ALLOWED_CONFIG_FILE with Some (File _) => False | _ => True end.
Proof.
  intros H. destruct (files w !! ALLOWED_CONFIG_FILE) as [[content|]|] eqn:E; auto.
  now apply (H content).
Qed.

(** The outcomes of [roi_config_read], by what the file system holds. *)
Lemma read_cases (params : Gateway.ReadConfigInput) (w : world) :
  Gateway.roi_config_read params w =
  match files w !! ALLOWED_CONFIG_FILE with
  | Some (File content) =>
      if Sys.utf8_valid content then
        match json_loads (Sys.universal_newlines content) with
        | Ok config =>
            (Ok (answer
                   (selected ← Gateway.select_data config (Gateway.section params);
                    match selected with
                    | None => Ok "Error: Unknown section"
                    | Some data =>
                        Gateway.render config (digest content) data
                          (Gateway.response_format params)
                    end)),
             hashed (read w))
        | Raise e => (Ok (answer (Raise e)), read w)
        end
      else (Ok (answer (Raise UnicodeDecodeError)), read w)
  | _ => (Ok (answer (Raise Gateway.not_found)), probed w)
  end.
Proof.
  unfold Gateway.roi_config_read, try_except, Gateway.error_text.
  unfold mbind at 1, M_bind at 1. rewrite read_config_spec.
  destruct (files w !! ALLOWED_CONFIG_FILE) as [[content|]|] eqn:E; try reflexivity.
  destruct (Sys.utf8_valid content); [|reflexivity].
  unfold Sys.loads. destruct (json_loads _) as [config|e]; [|reflexivity].
  unfold mbind at 1, M_bind at 1. rewrite get_file_hash_spec.
  cbn [files read probed Sys.accessed]. rewrite E.
  unfold_m.
  destruct (Gateway.select_data config (Gateway.section params)) as [[data|]|e];
    try reflexivity.
  cbn [mbind result_bind].
  now destruct (Gateway.render config (digest content) data (Gateway.response_format params)).
Qed.

(** X1.  [roi_config_read] always returns a text, and leaves the files,
    the standard output and the clock as they were. *)
Theorem read_is_safe (params : Gateway.ReadConfigInput) (w : world) :
  exists text w',
    Gateway.roi_config_read params w = (Ok text, w') /\
    files w' = files w /\ stdout w' = stdout w /\ ticks w' = ticks w.
Proof.
  rewrite read_cases.
  destruct (files w !! ALLOWED_CONFIG_FILE) as [[content|]|]; [|eauto 6 ..].
  destruct (Sys.utf8_valid content); [|eauto 6].
  destruct (json_loads _); eauto 6.
Qed.

(** X2.  When no regular file is at the configured path, a read returns
    the text "Error: Config file not found: <path>" after one test of the
    path: nothing is opened. *)
Theorem read_missing_file (params : Gateway.ReadConfigInput) (w : world) :
  missing w ->
  Gateway.roi_config_read params w =
  (Ok ("Error: Config file not found: " +:+ ALLOWED_CONFIG_FILE), probed w).
Proof.
  intros Hmissing%missing_lookup. rewrite read_cases.
  now destruct (files w !! ALLOWED_CONFIG_FILE) as [[content|]|].
Qed.

Lemma select_unknown (config : json) (name : string) :
  name ∉ ["" ; "metadata"; "gpuTypes"; "hardware"; "models"; "storage"] ->
  Gateway.select_data config (Some name) = Ok None.
Proof.
  intros Hname. unfold Gateway.select_data.
  assert (forall k, k ∈ ["" ; "metadata"; "gpuTypes"; "hardware"; "models"; "storage"] ->
                    String.eqb name k = false) as Hk.
  { intros k Hin. destruct (String.eqb_spec name k) as [->|]; [contradiction | reflexivity]. }
  rewrite !Hk by in_list. cbn [Gateway.lookup_section Gateway.section_map].
  rewrite !Hk by in_list. reflexivity.
Qed.

(** X3.  For a section name other than the empty one, "metadata" and the
    four names of the section map, a read of a file that parses returns
    "Error: Unknown section", whatever the document and the format are. *)
Theorem read_unknown_section (params : Gateway.ReadConfigInput) (w : world)
    (content name : string) (doc : json) :
  holds w content doc ->
  Gateway.section params = Some name ->
  name ∉ ["" ; "metadata"; "gpuTypes"; "hardware"; "models"; "storage"] ->
  Gateway.roi_config_read params w = (Ok "Error: Unknown section", hashed (read w)).
Proof.
  intros (Hfile & Hvalid & Hloads) Hsection Hname.
  rewrite read_cases, Hfile, Hvalid, Hloads, Hsection.
  now rewrite select_unknown.
Qed.

Lemma select_category (d : Dict.t) (name key : string) :
  (name, key) ∈ Gateway.section_map ->
  Gateway.select_data (JObject d) (Some name) =
  Ok (Some (default (JObject []) (Dict.get key d))).
Proof.
  unfold Gateway.section_map. rewrite !elem_of_cons, elem_of_nil.
  intros [[= -> ->]|[[= -> ->]|[[= -> ->]|[[= -> ->]|[]]]]];
    unfold Gateway.select_data, Py.get;
    cbn [String.eqb Ascii.eqb Bool.eqb Gateway.lookup_section Gateway.section_map
         mbind result_bind];
    now destruct (Dict.get _ d).
Qed.

(** What [render] gives for the document [JObject d]. *)
Lemma render_object (d : Dict.t) (file_hash : string) (data : json)
    (format : Gateway.ResponseFormat) :
  Gateway.render (JObject d) file_hash data format =
  Ok match format with
     | Gateway.JSON =>
         json_dumps (JObject [("file_hash", JString file_hash); ("data", data)])
     | Gateway.MARKDOWN =>
         "# ROI Config" +:+ nl +:+ "Version: "
         +:+ Py.str (default JNull (Dict.get "version" d)) +:+ nl
         +:+ PyStr.take_chars 3000 (json_dumps data)
     end.
Proof.
  unfold Gateway.render, Py.get. destruct format; [|reflexivity].
  cbn [mbind result_bind]. now destruct (Dict.get "version" d).
Qed.

(** X4.  A read of one of the four mapped sections ("gpuTypes", "hardware",
    "models" for [modelArchitectures], "storage" for [storageOptions])
    returns the value the document has under the mapped key, or the empty
    object when it has none, in the format asked for. *)
Theorem read_category (params : Gateway.ReadConfigInput) (w : world)
    (content name key : string) (d : Dict.t) :
  holds w content (JObject d) ->
  Gateway.section params = Some name ->
  (name, key) ∈ Gateway.section_map ->
  let data := default (JObject []) (Dict.get key d) in
  Gateway.roi_config_read params w =
  (Ok match Gateway.response_format params with
      | Gateway.JSON =>
          json_dumps (JObject [("file_hash", JString (digest content)); ("data", data)])
      | Gateway.MARKDOWN =>
          "# ROI Config" +:+ nl +:+ "Version: "
          +:+ Py.str (default JNull (Dict.get "version" d)) +:+ nl
          +:+ PyStr.take_chars 3000 (json_dumps data)
      end,
   hashed (read w)).
Proof.
  intros (Hfile & Hvalid & Hloads) Hsection Hkey data.
  rewrite read_cases, Hfile, Hvalid, Hloads, Hsection.
  rewrite (select_category d name key Hkey). cbn [mbind result_bind].
  now rewrite render_object.
Qed.

(** X5.  A read without a section, or with the empty one, returns the
    whole document.  In the JSON format this holds for every JSON value the
    file parses to; the digest needs the document to be an object, and for
    any other value the read returns the message of the [AttributeError]
    that [config.get] raises, which names the type of the value. *)
Theorem read_whole_document (params : Gateway.ReadConfigInput) (w : world)
    (content : string) (doc : json) :
  holds w content doc ->
  Gateway.section params = None \/ Gateway.section params = Some "" ->
  Gateway.roi_config_read params w =
  (Ok match Gateway.response_format params, doc with
      | Gateway.JSON, _ =>
          json_dumps (JObject [("file_hash", JString (digest content)); ("data", doc)])
      | Gateway.MARKDOWN, JObject d =>
          "# ROI Config" +:+ nl +:+ "Version: "
          +:+ Py.str (default JNull (Dict.get "version" d)) +:+ nl
          +:+ PyStr.take_chars 3000 (json_dumps doc)
      | Gateway.MARKDOWN, _ =>
          "Error: '" +:+ Py.type_name doc +:+ "' object has no attribute 'get'"
      end,
   hashed (read w)).
Proof.
  intros (Hfile & Hvalid & Hloads) Hsection.
  rewrite read_cases, Hfile, Hvalid, Hloads.
  assert (Gateway.select_data doc (Gateway.section params) = Ok (Some doc)) as ->
    by (destruct Hsection as [->| ->]; reflexivity).
  cbn [mbind result_bind].
  destruct doc; try rewrite render_object;
    now destruct (Gateway.response_format params).
Qed.

(** X6.  [roi_config_research] and [roi_config_status] never change a
    file, whether they return or raise. *)
Theorem research_and_status_write_nothing
    (params : Gateway.UpdatePreviewInput) (w : world) :
  files (Gateway.roi_config_research params w).2 = files w /\
  files (Gateway.roi_config_status w).2 = files w.
Proof.
  split.
  - unfold Gateway.roi_config_research.
    unfold mbind at 1, M_bind at 1.
    pose proof (read_config_files w) as H1.
    destruct (Gateway._read_config w) as [[config|e] w1]; cbn [snd] in H1 |- *;
      [|assumption].
    unfold_m. destruct (Py.get config "version" JNull); cbn [snd]; assumption.
  - unfold Gateway.roi_config_status.
    unfold mbind at 1, M_bind at 1. rewrite validate_spec.
    destruct (files w !! ALLOWED_CONFIG_FILE) as [[content|]|] eqn:E;
      try (unfold_m; reflexivity).
    unfold mbind at 1, M_bind at 1. unfold mbind at 1, M_bind at 1.
    pose proof (read_config_files (probed w)) as H1.
    destruct (Gateway._read_config (probed w)) as [[config|e] w1]; cbn [snd] in H1 |- *;
      [|assumption].
    unfold_m.
    repeat match goal with
           | |- context [match ?x with Ok _ => _ | Raise _ => _ end] =>
               destruct x; cbn [snd]
           end; assumption.
Qed.

(** X7.  When no regular file is at the configured path, the status tool
    reports that the file does not exist, with "N/A" for the version and 0
    for both counts, after one test of the path. *)
Theorem status_missing_file (w : world) :
  missing w ->
  Gateway.roi_config_status w =
  (Ok ("# ROI Config MCP Status" +:+ nl
       +:+ "File: " +:+ ALLOWED_CONFIG_FILE +:+ nl
       +:+ "Exists: False" +:+ nl
       +:+ "Version: N/A" +:+ nl
       +:+ "GPUs: 0" +:+ nl
       +:+ "Models: 0" +:+ nl
       +:+ "Security: Single file access only, requires confirmation for writes"),
   probed w).
Proof.
  intros Hmissing%missing_lookup. unfold Gateway.roi_config_status.
  unfold mbind at 1, M_bind at 1. rewrite validate_spec.
  now destruct (files w !! ALLOWED_CONFIG_FILE) as [[content|]|].
Qed.

(** X8.  For a file that holds a JSON object, the status tool reports the
    version ([None] when the document has none) and the sizes of
    [gpuTypes] and [modelArchitectures], the empty object standing for a
    missing one; the path is tested twice and the file opened once. *)
Theorem status_report (w : world) (content : string) (d : Dict.t) (gpus models : Z) :
  holds w content (JObject d) ->
  Py.len (default (JObject []) (Dict.get "gpuTypes" d)) = Ok gpus ->
  Py.len (default (JObject []) (Dict.get "modelArchitectures" d)) = Ok models ->
  Gateway.roi_config_status w =
  (Ok ("# ROI Config MCP Status" +:+ nl
       +:+ "File: " +:+ ALLOWED_CONFIG_FILE +:+ nl
       +:+ "Exists: True" +:+ nl
       +:+ "Version: " +:+ Py.str (default JNull (Dict.get "version" d)) +:+ nl
       +:+ "GPUs: " +:+ Py.str_int gpus +:+ nl
       +:+ "Models: " +:+ Py.str_int models +:+ nl
       +:+ "Security: Single file access only, requires confirmation for writes"),
   read (probed w)).
Proof.
  intros Hholds Hgpus Hmodels. unfold Gateway.roi_config_status.
  unfold mbind at 1, M_bind at 1. rewrite validate_spec.
  pose proof Hholds as (Hfile & Hvalid & Hloads). rewrite Hfile.
  unfold mbind at 1, M_bind at 1. unfold mbind at 1, M_bind at 1.
  rewrite (read_config_ok (probed w) content (JObject d)) by exact Hholds.
  unfold_m. unfold Py.get.
  change (match Dict.get "gpuTypes" d with Some v => v | None => JObject [] end)
    with (default (JObject []) (Dict.get "gpuTypes" d)).
  change (match Dict.get "modelArchitectures" d with Some v => v | None => JObject [] end)
    with (default (JObject []) (Dict.get "modelArchitectures" d)).
  rewrite Hgpus, Hmodels.
  now destruct (Dict.get "version" d).
Qed.

(** X9.  For a file that holds a JSON object, the research tool returns
    its request with the document's version ([None] when it has none), the
    date the clock gives and the categories as they were passed; the clock
    is read once and nothing is written. *)
Theorem research_report (params : Gateway.UpdatePreviewInput) (w : world)
    (content : string) (d : Dict.t) :
  holds w content (JObject d) ->
  Gateway.roi_config_research params w =
  (Ok ("# Research Request" +:+ nl
       +:+ "Version: " +:+ Py.str (default JNull (Dict.get "version" d)) +:+ nl
       +:+ "Date: " +:+ Sys.strftime (clock w (ticks w)) "%Y-%m-%d" +:+ nl
       +:+ "Categories: " +:+ default "None" (Gateway.categories params) +:+ nl
       +:+ nl
       +:+ "Research needed:" +:+ nl
       +:+ "- GPU pricing (H100, H200, B200, B300)" +:+ nl
       +:+ "- New AI models (Llama, Mistral, DeepSeek)  " +:+ nl
       +:+ "- Storage pricing updates" +:+ nl
       +:+ "- NVLink configurations" +:+ nl
       +:+ nl
       +:+ "Return JSON with version_increment, gpuTypes_updates, modelArchitectures_updates, notes."),
   Sys.ticked (read w)).
Proof.
  intros Hholds. unfold Gateway.roi_config_research.
  unfold mbind at 1, M_bind at 1. rewrite (read_config_ok w content (JObject d) Hholds).
  unfold_m. unfold Py.get. cbn [Sys.now].
  now destruct (Dict.get "version" d).
Qed.

End FurtherGateway.

Section FurtherApply.
Context {env : PyEnv}.

(** X10.  A confirmed call whose payload is not JSON returns the parser's
    error as a text and leaves the world as it was: the payload is parsed
    before the file is looked at.  The same holds of any other exception
    [json.loads] raises on the payload. *)
Theorem apply_malformed_payload (params : Gateway.ApplyUpdateInput) (w : world)
    (e : exn) :
  Gateway.user_confirmed params = true ->
  json_loads (Gateway.updates_json params) = Raise e ->
  Gateway.roi_config_apply params w = (Ok ("Error: " +:+ Py.str_exn e), w).
Proof.
  intros Hc Hloads. unfold Gateway.roi_config_apply. rewrite Hc. cbn [negb].
  unfold_m. unfold Sys.loads. now rewrite Hloads.
Qed.

(** X11.  A confirmed call with a payload that parses, made when no regular
    file is at the configured path, returns "Error: Config file not found:
    <path>" after one test of the path: the file is not created. *)
Theorem apply_missing_file (params : Gateway.ApplyUpdateInput) (w : world)
    (updates : json) :
  Gateway.user_confirmed params = true ->
  json_loads (Gateway.updates_json params) = Ok updates ->
  missing w ->
  Gateway.roi_config_apply params w =
  (Ok ("Error: Config file not found: " +:+ ALLOWED_CONFIG_FILE), probed w).
Proof.
  intros Hc Hloads Hmissing%missing_lookup.
  unfold Gateway.roi_config_apply. rewrite Hc. cbn [negb].
  unfold try_except.
  unfold mbind at 1, M_bind at 1, lift at 1. unfold Sys.loads. rewrite Hloads.
  unfold mbind at 1, M_bind at 1. rewrite read_config_spec.
  now destruct (files w !! ALLOWED_CONFIG_FILE) as [[content|]|].
Qed.

(** X28.  A confirmed call whose payload parses to a value other than an
    object returns, once the file has been read, the message of the
    [AttributeError] that [updates.get] raises, which names the type of the
    value; it writes nothing. *)
Theorem apply_non_object_payload (params : Gateway.ApplyUpdateInput) (w : world)
    (content : string) (d : Dict.t) (updates : json) :
  Gateway.user_confirmed params = true ->
  json_loads (Gateway.updates_json params) = Ok updates ->
  (forall u, updates <> JObject u) ->
  holds w content (JObject d) ->
  Gateway.roi_config_apply params w =
  (Ok ("Error: '" +:+ Py.type_name updates +:+ "' object has no attribute 'get'"),
   read w).
Proof.
  intros Hc Hloads Hobject Hholds.
  unfold Gateway.roi_config_apply. rewrite Hc. cbn [negb].
  unfold try_except.
  unfold mbind at 1, M_bind at 1, lift at 1. unfold Sys.loads. rewrite Hloads.
  unfold mbind at 1, M_bind at 1. rewrite (read_config_ok w content (JObject d) Hholds).
  unfold mbind at 1, M_bind at 1, lift at 1.
  assert (Gateway.version_step updates (JObject d)
          = Raise (AttributeError (Py.type_name updates) "get")) as ->.
  { unfold Gateway.version_step. cbn [Py.get mbind result_bind].
    destruct updates; try reflexivity. now destruct (Hobject entries). }
  reflexivity.
Qed.

(** The worlds a confirmed call can end in. *)
Lemma apply_confirmed_worlds (params : Gateway.ApplyUpdateInput) (w : world) :
  Gateway.user_confirmed params = true ->
  exists text w',
    Gateway.roi_config_apply params w = (Ok text, w') /\
    (w' = w \/ w' = probed w \/ w' = read w \/ w' = Sys.ticked (read w) \/
     exists config,
       w' = (Gateway._write_config config (Gateway.create_backup params)
               (Sys.ticked (read w))).2).
Proof.
  intros Hc. unfold Gateway.roi_config_apply. rewrite Hc. cbn [negb].
  unfold try_except, Gateway.error_text.
  unfold mbind at 1, M_bind at 1, lift at 1.
  destruct (Sys.loads (Gateway.updates_json params)) as [updates|e];
    [|unfold_m; do 2 eexists; (split; [reflexivity|]); auto 6].
  unfold mbind at 1, M_bind at 1. rewrite read_config_spec.
  destruct (files w !! ALLOWED_CONFIG_FILE) as [[content|]|];
    [|unfold_m; do 2 eexists; (split; [reflexivity|]); auto 6 ..].
  destruct (if Sys.utf8_valid content then _ else _) as [config|e];
    [|unfold_m; do 2 eexists; (split; [reflexivity|]); auto 6].
  unfold mbind at 1, M_bind at 1, lift at 1.
  destruct (Gateway.version_step updates config) as [[c1 ch1]|e] eqn:Hversion;
    [|unfold_m; do 2 eexists; (split; [reflexivity|]); auto 6].
  pose proof Hversion as (d & d1 & -> & -> & _)%version_step_inv.
  unfold mbind at 1, M_bind at 1. cbn [Sys.now].
  unfold mbind at 1, M_bind at 1, lift at 1. cbn [Py.setitem].
  unfold mbind at 1, M_bind at 1, lift at 1.
  destruct (Gateway.apply_category updates "gpuTypes_updates" _ _ _ ch1)
    as [[c3 ch3]|e]; [|unfold_m; do 2 eexists; (split; [reflexivity|]); auto 6].
  unfold mbind at 1, M_bind at 1, lift at 1.
  destruct (Gateway.apply_category updates "modelArchitectures_updates" _ _ _ ch3)
    as [[c4 ch4]|e]; [|unfold_m; do 2 eexists; (split; [reflexivity|]); auto 6].
  unfold mbind at 1, M_bind at 1.
  destruct (Gateway._write_config c4 (Gateway.create_backup params) (Sys.ticked (read w)))
    as [[result|e] w'] eqn:Hwrite;
    unfold_m; do 2 eexists; (split; [reflexivity|]); do 4 right;
    exists c4; now rewrite Hwrite.
Qed.

Lemma write_config_confined (config : json) (backup : bool) (w : world) :
  confined (ALLOWED_CONFIG_FILE :: if backup then [backup_path w] else []) w
    (Gateway._write_config config backup w).2.
Proof.
  unfold Gateway._write_config. unfold_m. rewrite validate_spec.
  destruct (files w !! ALLOWED_CONFIG_FILE) as [[content|]|] eqn:E; cbn [negb];
    [|confined_log ..].
  destruct backup.
  - cbn [Sys.now]. rewrite read_text_spec.
    cbn [files probed Sys.accessed Sys.ticked]. rewrite E.
    destruct (Sys.utf8_valid content); [|confined_log].
    unfold Sys.write_text at 1.
    cbn [files clock ticks probed Sys.accessed Sys.ticked]. fold (backup_path w).
    destruct (files w !! backup_path w) as [[bk|]|]; [|confined_log|];
      unfold Sys.write_text; cbn [files Sys.with_files Sys.accessed];
      change (files (Sys.ticked (probed w))) with (files w);
      destruct (<[backup_path w := _]> (files w) !! ALLOWED_CONFIG_FILE) as [[?|]|];
      confined_log.
  - unfold Sys.write_text. cbn [files probed Sys.accessed]. rewrite E. confined_log.
Qed.

(** X12.  The tools ask the file system about the configured path only,
    and [roi_config_apply], when a backup is asked for, about the backup
    path as well: no other path is tested or opened, whatever the inputs
    and the outcome. *)
Theorem gateway_single_file (reading : Gateway.ReadConfigInput)
    (research : Gateway.UpdatePreviewInput) (update : Gateway.ApplyUpdateInput)
    (w : world) :
  confined [ALLOWED_CONFIG_FILE] w (Gateway.roi_config_read reading w).2 /\
  confined [ALLOWED_CONFIG_FILE] w (Gateway.roi_config_research research w).2 /\
  confined [ALLOWED_CONFIG_FILE] w (Gateway.roi_config_status w).2 /\
  confined (ALLOWED_CONFIG_FILE ::
            if Gateway.create_backup update then [backup_path (Sys.ticked w)] else [])
    w (Gateway.roi_config_apply update w).2.
Proof.
  split_and!.
  - rewrite read_cases.
    destruct (files w !! ALLOWED_CONFIG_FILE) as [[content|]|]; [|confined_log ..].
    destruct (Sys.utf8_valid content); [|confined_log].
    destruct (json_loads _); confined_log.
  - unfold Gateway.roi_config_research.
    unfold mbind at 1, M_bind at 1. rewrite read_config_spec.
    destruct (files w !! ALLOWED_CONFIG_FILE) as [[content|]|]; [|confined_log ..].
    destruct (if Sys.utf8_valid content then _ else _) as [config|e]; [|confined_log].
    unfold_m. cbn [Sys.now]. destruct (Py.get config "version" JNull); confined_log.
  - unfold Gateway.roi_config_status.
    unfold mbind at 1, M_bind at 1. rewrite validate_spec.
    destruct (files w !! ALLOWED_CONFIG_FILE) as [[content|]|] eqn:E;
      [|unfold_m; confined_log ..].
    unfold mbind at 1, M_bind at 1. unfold mbind at 1, M_bind at 1.
    rewrite read_config_spec. cbn [files probed Sys.accessed]. rewrite E.
    destruct (if Sys.utf8_valid content then _ else _) as [config|e]; [|confined_log].
    unfold_m.
    repeat match goal with
           | |- context [match ?x with Ok _ => _ | Raise _ => _ end] => destruct x
           end; confined_log.
  - destruct (Gateway.user_confirmed update) eqn:Hc.
    + destruct (apply_confirmed_worlds update w Hc)
        as (text & w' & -> & [->|[->|[->|[->|[config ->]]]]]); cbn [snd];
        try confined_log.
      pose proof (write_config_confined config (Gateway.create_backup update)
                    (Sys.ticked (read w))) as (log & Hlog & Hall).
      exists (Stat ALLOWED_CONFIG_FILE :: Open ALLOWED_CONFIG_FILE "r" :: log).
      split.
      * rewrite Hlog. cbn [accesses Sys.ticked read probed Sys.accessed].
        now rewrite <- !app_assoc.
      * repeat (constructor; [cbn [path_of]; in_list|]). exact Hall.
    + rewrite apply_unconfirmed by assumption. confined_log.
Qed.

(** X13.  Whatever the inputs and the outcome, [roi_config_apply] leaves
    every path other than the configured one and, when a backup is asked
    for, the backup path as it was. *)
Theorem apply_footprint (params : Gateway.ApplyUpdateInput) (w : world) (path : string) :
  path <> ALLOWED_CONFIG_FILE ->
  (Gateway.create_backup params = true -> path <> backup_path (Sys.ticked w)) ->
  files (Gateway.roi_config_apply params w).2 !! path = files w !! path.
Proof.
  intros Hpath Hbackup.
  destruct (Gateway.user_confirmed params) eqn:Hc;
    [|now rewrite apply_unconfirmed by assumption].
  destruct (apply_confirmed_worlds params w Hc)
    as (text & w' & -> & [->|[->|[->|[->|[config ->]]]]]); cbn [snd];
    try reflexivity.
  pose proof (write_config_cases config (Gateway.create_backup params)
                (Sys.ticked (read w))) as C.
  destruct (Gateway._write_config config (Gateway.create_backup params)
              (Sys.ticked (read w))) as [r w']. cbn [snd].
  change (files (Sys.ticked (read w))) with (files w) in C.
  change (backup_path (Sys.ticked (read w))) with (backup_path (Sys.ticked w)) in C.
  destruct (files w !! ALLOWED_CONFIG_FILE) as [[content|]|];
    [|destruct C as [_ ->]; reflexivity ..].
  destruct (Gateway.create_backup params).
  - specialize (Hbackup eq_refl).
    destruct (Sys.utf8_valid content); [|destruct C as [_ ->]; reflexivity].
    destruct (files w !! backup_path (Sys.ticked w)) as [[bk|]|];
      destruct C as [_ ->]; try reflexivity;
      now rewrite !lookup_insert_ne by congruence.
  - destruct C as [_ ->]. now rewrite lookup_insert_ne by congruence.
Qed.

End FurtherApply.

Section FurtherDicts.

Lemma set_same k v d : Dict.get k d = Some v -> Dict.set k v d = d.
Proof.
  induction d as [|[k' v'] d IH]; simpl; [discriminate|].
  destruct (String.eqb_spec k k') as [->|Hne].
  - now intros [= ->].
  - intros H. now rewrite IH.
Qed.

Lemma set_set k v v' d : Dict.set k v (Dict.set k v' d) = Dict.set k v d.
Proof.
  induction d as [|[k0 v0] d IH]; simpl.
  - now rewrite String.eqb_refl.
  - destruct (String.eqb k k0) eqn:E; simpl.
    + now rewrite String.eqb_refl.
    + now rewrite E, IH.
Qed.

Lemma set_absent k v d : Dict.get k d = None -> Dict.set k v d = d ++ [(k, v)].
Proof.
  induction d as [|[k' v'] d IH]; simpl; [reflexivity|].
  destruct (String.eqb k k'); [discriminate|].
  intros H. now rewrite IH.
Qed.

Lemma keys_set k v d :
  keys (Dict.set k v d) = if Dict.mem k d then keys d else keys d ++ [k].
Proof.
  unfold Dict.mem, keys. induction d as [|[k' v'] d IH]; simpl; [reflexivity|].
  destruct (String.eqb_spec k k') as [->|Hne]; simpl; [reflexivity|].
  rewrite IH. now destruct (Dict.get k d).
Qed.

Lemma get_app k d d' :
  Dict.get k (d ++ d') = match Dict.get k d with Some v => Some v | None => Dict.get k d' end.
Proof.
  induction d as [|[k' v'] d IH]; simpl; [reflexivity|].
  now destruct (String.eqb k k').
Qed.

End FurtherDicts.

Section FurtherMerge.
Context {env : PyEnv}.

Lemma set_property_spec (d entries entry : Dict.t) (category key k : string) (v : json) :
  Dict.get category d = Some (JObject entries) ->
  Dict.get key entries = Some (JObject entry) ->
  Gateway.set_property (JObject d) category key k v =
  Ok (JObject (Dict.set category
                 (JObject (Dict.set key (JObject (Dict.set k v entry)) entries)) d)).
Proof.
  intros Hc Hk. unfold Gateway.set_property.
  cbn [Py.getitem mbind result_bind]. rewrite Hc.
  cbn [Py.getitem mbind result_bind]. rewrite Hk. reflexivity.
Qed.

Lemma apply_properties_merges (category label key : string)
    (props : list (string * json)) (d entries entry : Dict.t) (changes : list string) :
  Dict.get category d = Some (JObject entries) ->
  Dict.get key entries = Some (JObject entry) ->
  Gateway.apply_properties category label key props (JObject d) changes =
  Ok (JObject (Dict.set category
                 (JObject (Dict.set key (JObject (assign_all props entry)) entries)) d),
      changes ++ change_lines label key props).
Proof.
  revert d entries entry changes.
  induction props as [|[k v] props IH]; intros d entries entry changes Hc Hk.
  - cbn [Gateway.apply_properties assign_all fold_left change_lines List.map].
    now rewrite app_nil_r, (set_same key), (set_same category).
  - cbn [Gateway.apply_properties]. rewrite (set_property_spec d entries entry) by assumption.
    cbn [mbind result_bind].
    rewrite (IH _ (Dict.set key (JObject (Dict.set k v entry)) entries) (Dict.set k v entry))
      by apply get_set_eq.
    rewrite !set_set. cbn [assign_all fold_left change_lines List.map fst snd].
    now rewrite <- app_assoc.
Qed.

(** X14.  For an entry the document has under [category], the loop over
    the properties of an update is the assignment of each property in turn
    to that entry: the entry, its category and the document keep their
    places, and one change entry is recorded for every property, in the
    order of the update. *)
Theorem apply_entry_merges (category label key : string)
    (props : list (string * json)) (d entries entry : Dict.t) (changes : list string) :
  Dict.get category d = Some (JObject entries) ->
  Dict.get key entries = Some (JObject entry) ->
  Gateway.apply_entry category label (key, JObject props) (JObject d) changes =
  Ok (JObject (Dict.set category
                 (JObject (Dict.set key (JObject (assign_all props entry)) entries)) d),
      changes ++ change_lines label key props).
Proof.
  intros Hc Hk. unfold Gateway.apply_entry, Py.get. rewrite Hc.
  cbn [mbind result_bind Py.contains]. unfold Dict.mem. rewrite Hk.
  cbn [mbind result_bind Py.items]. now apply apply_properties_merges.
Qed.

Lemma merge_lookup (props : list (string * json)) (entry : Dict.t) (k : string) :
  Dict.get k (assign_all props entry) =
  match Dict.get k (List.rev props) with
  | Some v => Some v
  | None => Dict.get k entry
  end.
Proof.
  revert entry. induction props as [|[k' v'] props IH]; intros entry; [reflexivity|].
  cbn [assign_all fold_left fst snd List.rev]. fold (assign_all props (Dict.set k' v' entry)).
  rewrite IH, get_app. destruct (Dict.get k (List.rev props)); [reflexivity|].
  cbn [Dict.get]. destruct (String.eqb_spec k k') as [->|Hne].
  - apply get_set_eq.
  - now apply get_set_ne.
Qed.

(** X15.  After the update of an entry the document has, a property of the
    entry holds the last value the update gives for it, and the value it
    had when the update does not name it; the other entries of the category
    and the other keys of the document are as they were. *)
Theorem apply_entry_lookup (category label key : string)
    (props : list (string * json)) (d entries entry : Dict.t) (changes : list string) :
  Dict.get category d = Some (JObject entries) ->
  Dict.get key entries = Some (JObject entry) ->
  exists d' entries' entry' changes',
    Gateway.apply_entry category label (key, JObject props) (JObject d) changes
    = Ok (JObject d', changes') /\
    Dict.get category d' = Some (JObject entries') /\
    Dict.get key entries' = Some (JObject entry') /\
    (forall k, Dict.get k entry' =
               match Dict.get k (List.rev props) with
               | Some v => Some v
               | None => Dict.get k entry
               end) /\
    (forall other, other <> key -> Dict.get other entries' = Dict.get other entries) /\
    (forall other, other <> category -> Dict.get other d' = Dict.get other d) /\
    keys entries' = keys entries /\ keys d' = keys d.
Proof.
  intros Hc Hk. do 4 eexists.
  split.
  { unfold Gateway.apply_entry, Py.get. rewrite Hc.
    cbn [mbind result_bind Py.contains]. unfold Dict.mem. rewrite Hk.
    cbn [mbind result_bind Py.items].
    exact (apply_properties_merges category label key props d entries entry changes Hc Hk). }
  split_and!.
  - apply get_set_eq.
  - apply get_set_eq.
  - apply merge_lookup.
  - intros other Hne. now apply get_set_ne.
  - intros other Hne. now apply get_set_ne.
  - rewrite keys_set. unfold Dict.mem. now rewrite Hk.
  - rewrite keys_set. unfold Dict.mem. now rewrite Hc.
Qed.

End FurtherMerge.

Section FurtherWrites.
Context {env : PyEnv}.

Lemma version_default (kind : json) :
  Gateway.next_version (JString "1.0.0") kind =
  Ok (if Py.eq_str kind "minor" then "1.1.0" else "1.0.1").
Proof.
  change "1.0.0"%string with (dotted 1 0 0). rewrite next_version_dotted.
  now destruct (Py.eq_str kind "minor").
Qed.

(** X16.  A document without a [version] is taken to be at "1.0.0": with a
    truthy [version_increment] the version step adds the key [version] after
    the keys the document has, with "1.1.0" for "minor" and "1.0.1" for any
    other increment, and records the change from "1.0.0". *)
Theorem version_defaults (updates : json) (d : Dict.t) (kind : json) :
  Dict.get "version" d = None ->
  Py.get updates "version_increment" JNull = Ok kind ->
  Py.truthy kind = true ->
  let new_version := if Py.eq_str kind "minor" then "1.1.0" else "1.0.1" in
  Gateway.version_step updates (JObject d) =
  Ok (JObject (d ++ [("version", JString new_version)]),
      ["Version: 1.0.0 -> " +:+ new_version]).
Proof.
  intros Hversion Hkind Htruthy new_version.
  assert (Py.get (JObject d) "version" (JString "1.0.0") = Ok (JString "1.0.0")) as Hold
    by (unfold Py.get; now rewrite Hversion).
  unfold Gateway.version_step. rewrite Hold.
  cbn [mbind result_bind]. rewrite Hkind. cbn [mbind result_bind].
  rewrite Htruthy, version_default. cbn [mbind result_bind Py.setitem].
  now rewrite set_absent.
Qed.













End FurtherWrites.

Section RoundTrip.
Context {env : PyEnv}.

Lemma write_newlines_cons (sep : string) (c : ascii) (s : string) :
  Sys.write_newlines sep (String c s) =
  if Ascii.eqb c (ascii_of_nat 10) then sep +:+ Sys.write_newlines sep s
  else String c (Sys.write_newlines sep s).
Proof. reflexivity. Qed.

Lemma crlf_cons (s : string) :
  (cr +:+ nl) +:+ s = String (ascii_of_nat 13) (String (ascii_of_nat 10) s).
Proof. reflexivity. Qed.

Lemma utf8_valid_from_cons (need lo hi : nat) (c : ascii) (rest : string) :
  Sys.utf8_valid_from need lo hi (String c rest) =
  let b := nat_of_ascii c in
  match need with
  | S k => ((lo <=? b) && (b <=? hi))%nat && Sys.utf8_valid_from k 128 191 rest
  | O =>
      (if b <? 128 then Sys.utf8_valid_from 0 128 191 rest
       else if (194 <=? b) && (b <=? 223) then Sys.utf8_valid_from 1 128 191 rest
       else if b =? 224 then Sys.utf8_valid_from 2 160 191 rest
       else if b =? 237 then Sys.utf8_valid_from 2 128 159 rest
       else if (225 <=? b) && (b <=? 239) then Sys.utf8_valid_from 2 128 191 rest
       else if b =? 240 then Sys.utf8_valid_from 3 144 191 rest
       else if b =? 244 then Sys.utf8_valid_from 3 128 143 rest
       else if (241 <=? b) && (b <=? 243) then Sys.utf8_valid_from 3 128 191 rest
       else false)%nat
  end.
Proof. reflexivity. Qed.

Lemma utf8_valid_crlf (need lo hi : nat) (s : string) :
  (13 < lo)%nat ->
  Sys.utf8_valid_from need lo hi (Sys.write_newlines (cr +:+ nl) s) =
  Sys.utf8_valid_from need lo hi s.
Proof.
  revert need lo hi. induction s as [|c s IH]; intros need lo hi Hlo; [reflexivity|].
  rewrite write_newlines_cons.
  destruct (Ascii.eqb_spec c (ascii_of_nat 10)) as [->|Hc].
  - rewrite crlf_cons, !utf8_valid_from_cons.
    change (nat_of_ascii (ascii_of_nat 13)) with 13%nat.
    change (nat_of_ascii (ascii_of_nat 10)) with 10%nat.
    cbv zeta. destruct need as [|k].
    + change (13 <? 128)%nat with true. change (10 <? 128)%nat with true.
      cbv iota. apply IH. lia.
    + assert ((lo <=? 13)%nat = false) as -> by (apply Nat.leb_gt; lia).
      assert ((lo <=? 10)%nat = false) as -> by (apply Nat.leb_gt; lia).
      reflexivity.
  - rewrite !utf8_valid_from_cons. cbv zeta.
    destruct need as [|k]; rewrite !IH by lia; reflexivity.
Qed.

Lemma universal_newlines_crlf (s : string) :
  all_chars (fun c => negb (Ascii.eqb c (ascii_of_nat 13))) s = true ->
  Sys.universal_newlines (Sys.write_newlines (cr +:+ nl) s) = s.
Proof.
  induction s as [|c s IH]; [reflexivity|].
  rewrite all_chars_cons. intros [Hc Hs]%andb_true_iff. apply negb_true_iff in Hc.
  rewrite write_newlines_cons.
  destruct (Ascii.eqb_spec c (ascii_of_nat 10)) as [->|Hlf].
  - rewrite crlf_cons.
    change (Sys.universal_newlines
              (String (ascii_of_nat 13)
                 (String (ascii_of_nat 10) (Sys.write_newlines (cr +:+ nl) s))))
      with (String (ascii_of_nat 10)
              (Sys.universal_newlines (Sys.write_newlines (cr +:+ nl) s))).
    now rewrite IH.
  - cbn [Sys.universal_newlines]. rewrite Hc. now rewrite IH.
Qed.

(** What is written in text mode is read back as it was, on a platform
    whose lines end with LF or with CR LF. *)
Lemma text_round_trip (text : string) :
  os_linesep = nl \/ os_linesep = cr +:+ nl ->
  all_chars (fun c => negb (Ascii.eqb c (ascii_of_nat 13))) text = true ->
  Sys.utf8_valid (encode text) = Sys.utf8_valid text /\
  Sys.universal_newlines (encode text) = text.
Proof.
  unfold encode, Sys.utf8_valid. intros [-> | ->] Hcr.
  - rewrite write_newlines_lf. split; [reflexivity|].
    now apply universal_newlines_without_cr.
  - split; [apply utf8_valid_crlf; lia | now apply universal_newlines_crlf].
Qed.

(** X20.  What [_write_config] has written, [_read_config] reads back: when
    the dump of a document is well-formed UTF-8 without carriage return and
    parses to the document, and lines end with LF or CR LF on the platform,
    a read made after a write that returned gives the document written. *)
Theorem write_then_read (config : json) (backup : bool) (w w' : world) (result : string) :
  Gateway._write_config config backup w = (Ok result, w') ->
  os_linesep = nl \/ os_linesep = cr +:+ nl ->
  Sys.utf8_valid (json_dumps config) = true ->
  all_chars (fun c => negb (Ascii.eqb c (ascii_of_nat 13))) (json_dumps config) = true ->
  json_loads (json_dumps config) = Ok config ->
  Gateway._read_config w' = (Ok config, read w').
Proof.
  intros Hwrite Hsep Hvalid Hcr Hloads.
  apply write_config_ok in Hwrite.
  destruct (text_round_trip (json_dumps config) Hsep Hcr) as [Hv Hu].
  apply (read_config_ok w' (encode (json_dumps config))).
  split_and!; [assumption | now rewrite Hv | now rewrite Hu].
Qed.

End RoundTrip.

Section FurtherVersions.
Context {env : PyEnv}.

Lemma dots_cons (c : ascii) (s : string) :
  dots (String c s) = if Ascii.eqb c "." then S (dots s) else dots s.
Proof.
  unfold dots. cbn [list_ascii_of_string List.filter].
  rewrite (Ascii.eqb_sym "." c). now destruct (Ascii.eqb c ".").
Qed.

Lemma split_dots (piece s : string) :
  List.length (PyStr.split_go "." 0 piece s) = S (dots s).
Proof.
  revert piece. induction s as [|c s IH]; intros piece; [reflexivity|].
  rewrite split_go_dot_cons, dots_cons.
  destruct (Ascii.eqb c "."); cbn [List.length]; now rewrite IH.
Qed.

Lemma increment_version_dotted (a b c : N) (kind : json) :
  Batch.increment_version (JString (dotted a b c)) kind =
  Ok (JString (if Py.eq_str kind "minor" then dotted a (b + 1) 0 else dotted a b (c + 1))).
Proof.
  unfold Batch.increment_version, Py.split. rewrite split_dotted.
  cbn [mbind result_bind List.length Nat.eqb Py.index nth_error].
  rewrite !int_dec. cbn [mbind result_bind].
  unfold dotted, dec.
  destruct (Py.eq_str kind "minor"); now rewrite N2Z.inj_add.
Qed.

(** X21.  [increment_version] can be applied to its own result: from a
    version of three dot-joined numerals, [n] increments in a row of a kind
    other than "minor" add [n] to the patch part, and [n] "minor"
    increments add [n] to the minor part and leave the patch part at 0. *)
Theorem increment_version_iterates (a b c : N) (n : nat) (kind : json) :
  Nat.iter n (fun r => r ≫= fun v => Batch.increment_version v kind)
    (Ok (JString (dotted a b c))) =
  Ok (JString (if Py.eq_str kind "minor"
               then dotted a (b + N.of_nat n) (match n with O => c | S _ => 0 end)
               else dotted a b (c + N.of_nat n))).
Proof.
  induction n as [|n IH].
  - cbn [Nat.iter N.of_nat]. rewrite !N.add_0_r. now destruct (Py.eq_str kind "minor").
  - rewrite Nat.iter_succ, IH. cbn [mbind result_bind].
    destruct (Py.eq_str kind "minor") eqn:E; rewrite increment_version_dotted, E;
      do 3 f_equal; lia.
Qed.

(** X22.  [increment_version] returns a version string that does not have
    exactly two dots as it is, whatever the increment: it never raises on a
    string without three components. *)
Theorem increment_version_keeps (version : string) (kind : json) :
  dots version <> 2%nat ->
  Batch.increment_version (JString version) kind = Ok (JString version).
Proof.
  intros Hdots. unfold Batch.increment_version, Py.split, PyStr.split.
  cbn [mbind result_bind]. rewrite split_dots.
  destruct (Nat.eqb_spec (S (dots version)) 3) as [Heq|_]; [lia | reflexivity].
Qed.

(** X23.  The Gateway's rule has no such guard: on a version string with
    fewer than two dots it always raises, an [IndexError] for the missing
    component or a [ValueError] for a component before it that is not an
    integer. *)
Theorem next_version_short (version : string) (kind : json) :
  (dots version < 2)%nat ->
  exists e, Gateway.next_version (JString version) kind = Raise e /\
            (e = IndexError \/ exists literal, e = ValueError literal).
Proof.
  intros Hdots. unfold Gateway.next_version, Py.split, PyStr.split.
  cbn [mbind result_bind].
  pose proof (split_dots "" version) as Hlen.
  destruct (PyStr.split_go "." 0 "" version) as [|p0 [|p1 [|p2 rest]]];
    cbn [List.length] in Hlen; try lia;
    cbn [Py.index nth_error mbind result_bind]; unfold Py.int.
  - destruct (if PyStr.all_ascii p0 then _ else _); cbn [mbind result_bind]; eauto.
  - destruct (if PyStr.all_ascii p0 then _ else _); cbn [mbind result_bind]; [|eauto].
    destruct (if PyStr.all_ascii p1 then _ else _); cbn [mbind result_bind]; eauto.
Qed.

End FurtherVersions.

Section FurtherBatch.
Context {env : PyEnv}.

(** X24.  Reading the response raises nothing of its own: a response with
    a JSON fence always has a part after the fence, so the text handed to
    the parser is always defined (no [IndexError]), and it is the response
    itself when there is no fence.  The result then follows the parser: the
    parsed value; [None], after one failure line has been printed, when the
    parser raises [json.JSONDecodeError]; and any other exception of the
    parser, such as [RecursionError], leaves the function as it is. *)
Theorem parse_response_total (response_text : string) (w : world) :
  exists s,
    Batch.json_str response_text = Ok s /\
    (PyStr.contains "```json" response_text = false -> s = response_text) /\
    Batch.parse_response response_text w =
    match json_loads (PyStr.strip s) with
    | Ok v => (Ok v, w)
    | Raise (JSONDecodeError doc) =>
        (Ok JNull,
         Sys.printed ("Failed to parse response: "
                      +:+ Py.str_exn (JSONDecodeError doc)) w)
    | Raise e => (Raise e, w)
    end.
Proof.
  destruct (json_str_total response_text) as [s Hs]. exists s.
  split_and!; [assumption | |].
  - intros Hno. unfold Batch.json_str in Hs. rewrite Hno in Hs. congruence.
  - unfold Batch.parse_response. unfold_m. rewrite Hs. unfold Sys.loads.
    destruct (json_loads (PyStr.strip s)) as [v|e]; [reflexivity|].
    now destruct e.
Qed.

(** X25.  When nothing is at the path of the configuration file, a run
    prints its header, the date and the error line, and returns 1; it has
    read the clock once and tested the path once, and opens nothing. *)
Theorem main_missing_config (w : world) :
  files w !! Batch.CONFIG_FILE = None ->
  Batch.main w =
  (Ok 1,
   World (files w) (clock w) (S (ticks w))
     (stdout w ++ ["=== Weekly ROI Calculator Update ===";
                   "Date: " +:+ Sys.strftime (clock w (ticks w)) "%Y-%m-%d %H:%M:%S";
                   "Error: Config file not found: roi-config Rev 08.json"])
     (accesses w ++ [Stat "roi-config Rev 08.json"])).
Proof.
  intros Hnone. unfold Batch.main. unfold_m. world_simpl. rewrite Hnone.
  cbn [negb]. unfold Sys.printed. world_simpl. now rewrite <- !app_assoc.
Qed.

(** X26.  When the configuration file holds a JSON object and the client
    can be made, a run prints four lines and then fails with the
    [KeyError] of the prompt template, whose JSON sample has its braces
    unescaped: the request is never sent and no file is written. *)
Theorem main_raises_key_error (w : world) (content : string) (d : Dict.t) :
  files w !! Batch.CONFIG_FILE = Some (File content) ->
  Sys.utf8_valid content = true ->
  json_loads (Sys.universal_newlines content) = Ok (JObject d) ->
  Anthropic_init = None ->
  exists w',
    Batch.main w =
    (Raise (KeyError (nl +:+ "  " +:+ dq +:+ "version_increment" +:+ dq)), w') /\
    files w' = files w /\
    stdout w' =
    stdout w ++ ["=== Weekly ROI Calculator Update ===";
                 "Date: " +:+ Sys.strftime (clock w (ticks w)) "%Y-%m-%d %H:%M:%S";
                 "Current version: "
                 +:+ Py.str (default (JString "unknown") (Dict.get "version" d));
                 "Fetching updates from Claude API..."].
Proof.
  intros Hfile Hvalid Hloads Hinit. unfold Batch.main. unfold_m. world_simpl.
  rewrite Hfile. cbn [negb]. rewrite read_text_spec. world_simpl.
  rewrite Hfile, Hvalid. unfold Sys.loads. rewrite Hloads.
  unfold Py.get at 1.
  change (match Dict.get "version" d with Some v => v | None => JString "unknown" end)
    with (default (JString "unknown") (Dict.get "version" d)).
  unfold Batch.get_claude_updates. unfold_m. rewrite Hinit. world_simpl.
  unfold Py.get. rewrite prompt_format_fails.
  eexists. split_and!; [reflexivity | reflexivity |].
  unfold Sys.printed. world_simpl. now rewrite <- !app_assoc.
Qed.

(** X27.  A response that parses to a truthy value other than an object (a
    list, a number, a string) makes the run fail with the [AttributeError]
    of [updates.get], raised on a value of that type, before anything is
    printed or written. *)
Theorem finish_non_object (config updates : json) (w : world) :
  Py.truthy updates = true ->
  (forall u, updates <> JObject u) ->
  Batch.finish config updates w =
  (Raise (AttributeError (Py.type_name updates) "get"), w).
Proof.
  intros Htruthy Hobject. unfold Batch.finish. rewrite Htruthy.
  destruct updates; try reflexivity. now destruct (Hobject entries).
Qed.

End FurtherBatch.

(** ** Further worked examples *)

Section FurtherExamples.
#[local] Existing Instance Example.env.

Lemma missing_empty : missing (Example.world_with ∅).
Proof. intros content. vm_compute. discriminate. Qed.

Lemma read_missing_file_witness :
  let w := Example.world_with ∅ in
  let params := {| Gateway.section := Some "hardware";
                   Gateway.response_format := Gateway.JSON |} in
  missing w /\
  Gateway.roi_config_read params w =
  (Ok "Error: Config file not found: /data/roi-config Rev 08.json", probed w).
Proof.
  split; [exact missing_empty|].
  exact (read_missing_file
           {| Gateway.section := Some "hardware"; Gateway.response_format := Gateway.JSON |}
           (Example.world_with ∅) missing_empty).
Defined.

Lemma read_unknown_section_witness :
  let w := stored Example.metadata_text in
  let params := {| Gateway.section := Some "pricing";
                   Gateway.response_format := Gateway.MARKDOWN |} in
  holds w Example.metadata_text Example.metadata_document /\
  Gateway.section params = Some "pricing" /\
  ("pricing" ∉ ["" ; "metadata"; "gpuTypes"; "hardware"; "models"; "storage"]) /\
  Gateway.roi_config_read params w = (Ok "Error: Unknown section", hashed (read w)).
Proof.
  assert ("pricing" ∉ ["" ; "metadata"; "gpuTypes"; "hardware"; "models"; "storage"])
    as Hname by not_in_list.
  split_and!; [exact holds_metadata | reflexivity | exact Hname |].
  exact (read_unknown_section
           {| Gateway.section := Some "pricing";
              Gateway.response_format := Gateway.MARKDOWN |}
           (stored Example.metadata_text) Example.metadata_text "pricing"
           Example.metadata_document holds_metadata eq_refl Hname).
Defined.

Lemma read_category_witness :
  let w := stored Example.metadata_text in
  let params := {| Gateway.section := Some "models";
                   Gateway.response_format := Gateway.JSON |} in
  holds w Example.metadata_text Example.metadata_document /\
  Gateway.section params = Some "models" /\
  ("models", "modelArchitectures") ∈ Gateway.section_map /\
  Gateway.roi_config_read params w =
  (Ok (json_dumps (JObject [("file_hash", JString (digest Example.metadata_text));
                            ("data", JObject [])])),
   hashed (read w)).
Proof.
  assert (("models", "modelArchitectures") ∈ Gateway.section_map) as Hkey
    by (unfold Gateway.section_map; in_list).
  split_and!; [exact holds_metadata | reflexivity | exact Hkey |].
  exact (read_category
           {| Gateway.section := Some "models"; Gateway.response_format := Gateway.JSON |}
           (stored Example.metadata_text) Example.metadata_text "models"
           "modelArchitectures" _ holds_metadata eq_refl Hkey).
Defined.

Lemma status_missing_file_witness :
  let w := Example.world_with ∅ in
  missing w /\
  Gateway.roi_config_status w =
  (Ok ("# ROI Config MCP Status" +:+ nl
       +:+ "File: /data/roi-config Rev 08.json" +:+ nl
       +:+ "Exists: False" +:+ nl
       +:+ "Version: N/A" +:+ nl
       +:+ "GPUs: 0" +:+ nl
       +:+ "Models: 0" +:+ nl
       +:+ "Security: Single file access only, requires confirmation for writes"),
   probed w).
Proof.
  split; [exact missing_empty|].
  exact (status_missing_file (Example.world_with ∅) missing_empty).
Defined.

Lemma status_report_witness :
  let w := stored Example.metadata_text in
  let d := [("version", JString "2.1.0");
            ("lastUpdated", JString "2024-01-01T00:00:00Z");
            ("gpuTypes", JObject [("H100", JObject [("price", JInt 30000)])])] in
  holds w Example.metadata_text (JObject d) /\
  Py.len (default (JObject []) (Dict.get "gpuTypes" d)) = Ok 1 /\
  Py.len (default (JObject []) (Dict.get "modelArchitectures" d)) = Ok 0 /\
  Gateway.roi_config_status w =
  (Ok ("# ROI Config MCP Status" +:+ nl
       +:+ "File: /data/roi-config Rev 08.json" +:+ nl
       +:+ "Exists: True" +:+ nl
       +:+ "Version: 2.1.0" +:+ nl
       +:+ "GPUs: 1" +:+ nl
       +:+ "Models: 0" +:+ nl
       +:+ "Security: Single file access only, requires confirmation for writes"),
   read (probed w)).
Proof.
  split_and!; [exact holds_metadata | reflexivity | reflexivity |].
  exact (status_report (stored Example.metadata_text) Example.metadata_text
           [("version", JString "2.1.0");
            ("lastUpdated", JString "2024-01-01T00:00:00Z");
            ("gpuTypes", JObject [("H100", JObject [("price", JInt 30000)])])]
           1 0 holds_metadata eq_refl eq_refl).
Defined.

Lemma research_report_witness :
  let w := stored Example.metadata_text in
  let params := {| Gateway.categories := Some "gpu" |} in
  holds w Example.metadata_text Example.metadata_document /\
  (Gateway.roi_config_research params w).1 =
  Ok ("# Research Request" +:+ nl
      +:+ "Version: 2.1.0" +:+ nl
      +:+ "Date: 2024-06-01" +:+ nl
      +:+ "Categories: gpu" +:+ nl
      +:+ nl
      +:+ "Research needed:" +:+ nl
      +:+ "- GPU pricing (H100, H200, B200, B300)" +:+ nl
      +:+ "- New AI models (Llama, Mistral, DeepSeek)  " +:+ nl
      +:+ "- Storage pricing updates" +:+ nl
      +:+ "- NVLink configurations" +:+ nl
      +:+ nl
      +:+ "Return JSON with version_increment, gpuTypes_updates, modelArchitectures_updates, notes.").
Proof.
  split; [exact holds_metadata|].
  exact (f_equal fst
           (research_report {| Gateway.categories := Some "gpu" |}
              (stored Example.metadata_text) Example.metadata_text _ holds_metadata)).
Defined.

Lemma apply_malformed_payload_witness :
  let params := {| Gateway.updates_json := "not JSON at all";
                   Gateway.user_confirmed := true;
                   Gateway.create_backup := true |} in
  let w := stored Example.metadata_text in
  Gateway.user_confirmed params = true /\
  json_loads (Gateway.updates_json params) = Raise (JSONDecodeError "not JSON at all") /\
  Gateway.roi_config_apply params w =
  (Ok "Error: Expecting value: line 1 column 1 (char 0)", w).
Proof.
  split_and!; [reflexivity | reflexivity |].
  exact (apply_malformed_payload
           {| Gateway.updates_json := "not JSON at all";
              Gateway.user_confirmed := true;
              Gateway.create_backup := true |}
           (stored Example.metadata_text) (JSONDecodeError "not JSON at all")
           eq_refl eq_refl).
Defined.

Lemma apply_missing_file_witness :
  let params := {| Gateway.updates_json := "{}";
                   Gateway.user_confirmed := true;
                   Gateway.create_backup := true |} in
  let w := Example.world_with ∅ in
  Gateway.user_confirmed params = true /\
  json_loads (Gateway.updates_json params) = Ok (JObject []) /\
  missing w /\
  Gateway.roi_config_apply params w =
  (Ok "Error: Config file not found: /data/roi-config Rev 08.json", probed w).
Proof.
  split_and!; [reflexivity | reflexivity | exact missing_empty |].
  exact (apply_missing_file
           {| Gateway.updates_json := "{}";
              Gateway.user_confirmed := true;
              Gateway.create_backup := true |}
           (Example.world_with ∅) (JObject []) eq_refl eq_refl missing_empty).
Defined.

Lemma apply_footprint_witness :
  let params := {| Gateway.updates_json := "{}";
                   Gateway.user_confirmed := true;
                   Gateway.create_backup := true |} in
  let w := Example.world_with {[ Example.config_path := File Example.metadata_text;
                                 "/data/notes.txt" := File "keep" ]} in
  "/data/notes.txt" <> ALLOWED_CONFIG_FILE /\
  (Gateway.create_backup params = true ->
   "/data/notes.txt" <> backup_path (Sys.ticked w)) /\
  files (Gateway.roi_config_apply params w).2 !! "/data/notes.txt" = Some (File "keep").
Proof.
  intros params w.
  assert ("/data/notes.txt" <> ALLOWED_CONFIG_FILE) as Hpath by (vm_compute; discriminate).
  assert (Gateway.create_backup params = true ->
          "/data/notes.txt" <> backup_path (Sys.ticked w)) as Hbackup
    by (intros _; vm_compute; discriminate).
  split_and!; [exact Hpath | exact Hbackup |].
  exact (eq_trans (apply_footprint params w "/data/notes.txt" Hpath Hbackup) eq_refl).
Defined.

Lemma apply_entry_merges_witness :
  let d := [("version", JString "2.1.0");
            ("gpuTypes", JObject [("H100", JObject [("price", JInt 30000)])])] in
  let props := [("price", JInt 25000); ("memory", JInt 80); ("price", JInt 27000)] in
  Dict.get "gpuTypes" d = Some (JObject [("H100", JObject [("price", JInt 30000)])]) /\
  Dict.get "H100" [("H100", JObject [("price", JInt 30000)])]
  = Some (JObject [("price", JInt 30000)]) /\
  Gateway.apply_entry "gpuTypes" "gpuTypes" ("H100", JObject props) (JObject d) [] =
  Ok (JObject [("version", JString "2.1.0");
               ("gpuTypes",
                JObject [("H100", JObject [("price", JInt 27000); ("memory", JInt 80)])])],
      ["gpuTypes.H100.price: 25000"; "gpuTypes.H100.memory: 80";
       "gpuTypes.H100.price: 27000"]).
Proof.
  split_and!; [reflexivity | reflexivity |].
  exact (apply_entry_merges "gpuTypes" "gpuTypes" "H100"
           [("price", JInt 25000); ("memory", JInt 80); ("price", JInt 27000)]
           [("version", JString "2.1.0");
            ("gpuTypes", JObject [("H100", JObject [("price", JInt 30000)])])]
           [("H100", JObject [("price", JInt 30000)])]
           [("price", JInt 30000)] [] eq_refl eq_refl).
Defined.

Lemma apply_entry_lookup_witness :
  let d := [("version", JString "2.1.0");
            ("gpuTypes", JObject [("H100", JObject [("price", JInt 30000)]);
                                  ("B200", JObject [("price", JInt 45000)])])] in
  let entries := [("H100", JObject [("price", JInt 30000)]);
                  ("B200", JObject [("price", JInt 45000)])] in
  let props := [("price", JInt 25000); ("price", JInt 27000)] in
  Dict.get "gpuTypes" d = Some (JObject entries) /\
  Dict.get "H100" entries = Some (JObject [("price", JInt 30000)]) /\
  exists d' entries' entry' changes',
    Gateway.apply_entry "gpuTypes" "gpuTypes" ("H100", JObject props) (JObject d) []
    = Ok (JObject d', changes') /\
    Dict.get "gpuTypes" d' = Some (JObject entries') /\
    Dict.get "H100" entries' = Some (JObject entry') /\
    Dict.get "price" entry' = Some (JInt 27000) /\
    Dict.get "B200" entries' = Some (JObject [("price", JInt 45000)]) /\
    Dict.get "version" d' = Some (JString "2.1.0") /\
    keys entries' = ["H100"; "B200"] /\ keys d' = ["version"; "gpuTypes"].
Proof.
  split_and!; [reflexivity | reflexivity |].
  destruct (apply_entry_lookup "gpuTypes" "gpuTypes" "H100"
              [("price", JInt 25000); ("price", JInt 27000)]
              [("version", JString "2.1.0");
               ("gpuTypes", JObject [("H100", JObject [("price", JInt 30000)]);
                                     ("B200", JObject [("price", JInt 45000)])])]
              [("H100", JObject [("price", JInt 30000)]);
               ("B200", JObject [("price", JInt 45000)])]
              [("price", JInt 30000)] [] eq_refl eq_refl)
    as (d' & entries' & entry' & changes' & H1 & H2 & H3 & H4 & H5 & H6 & H7 & H8).
  exists d', entries', entry', changes'.
  split_and!; [exact H1 | exact H2 | exact H3 | exact (H4 "price")
              | exact (H5 "B200" ltac:(discriminate))
              | exact (H6 "version" ltac:(discriminate)) | exact H7 | exact H8].
Defined.

Lemma version_defaults_witness :
  let updates := JObject [("version_increment", JString "minor")] in
  let d := [("hardware", JObject [])] in
  Dict.get "version" d = None /\
  Py.get updates "version_increment" JNull = Ok (JString "minor") /\
  Py.truthy (JString "minor") = true /\
  Gateway.version_step updates (JObject d) =
  Ok (JObject [("hardware", JObject []); ("version", JString "1.1.0")],
      ["Version: 1.0.0 -> 1.1.0"]).
Proof.
  split_and!; [reflexivity | reflexivity | reflexivity |].
  exact (version_defaults (JObject [("version_increment", JString "minor")])
           [("hardware", JObject [])] (JString "minor") eq_refl eq_refl eq_refl).
Defined.

Lemma increment_version_keeps_witness :
  dots "1.2" <> 2%nat /\
  Batch.increment_version (JString "1.2") (JString "patch") = Ok (JString "1.2").
Proof.
  assert (dots "1.2" <> 2%nat) as Hdots by (vm_compute; discriminate).
  split; [exact Hdots|].
  exact (increment_version_keeps "1.2" (JString "patch") Hdots).
Defined.

Lemma next_version_short_witness :
  (dots "1.2" < 2)%nat /\
  exists e, Gateway.next_version (JString "1.2") (JString "patch") = Raise e /\
            (e = IndexError \/ exists literal, e = ValueError literal).
Proof.
  assert (dots "1.2" < 2)%nat as Hdots by (vm_compute; lia).
  split; [exact Hdots|].
  exact (next_version_short "1.2" (JString "patch") Hdots).
Defined.

Lemma main_missing_config_witness :
  let w := Example.world_with ∅ in
  files w !! Batch.CONFIG_FILE = None /\
  Batch.main w =
  (Ok 1,
   World ∅ (fun _ => Example.noon) 1
     ["=== Weekly ROI Calculator Update ===";
      "Date: 2024-06-01 12:00:00";
      "Error: Config file not found: roi-config Rev 08.json"]
     [Stat "roi-config Rev 08.json"]).
Proof.
  split; [reflexivity|].
  exact (main_missing_config (Example.world_with ∅) eq_refl).
Defined.

Lemma main_raises_key_error_witness :
  let w := Example.world_with {[ Batch.CONFIG_FILE := File "{}" ]} in
  files w !! Batch.CONFIG_FILE = Some (File "{}") /\
  Sys.utf8_valid "{}" = true /\
  json_loads (Sys.universal_newlines "{}") = Ok (JObject []) /\
  Anthropic_init = None /\
  exists w',
    Batch.main w =
    (Raise (KeyError (nl +:+ "  " +:+ dq +:+ "version_increment" +:+ dq)), w') /\
    files w' = files w /\
    stdout w' =
    ["=== Weekly ROI Calculator Update ===";
     "Date: 2024-06-01 12:00:00";
     "Current version: unknown";
     "Fetching updates from Claude API..."].
Proof.
  split_and!; [reflexivity | reflexivity | reflexivity | reflexivity |].
  exact (main_raises_key_error
           (Example.world_with {[ Batch.CONFIG_FILE := File "{}" ]}) "{}" []
           eq_refl eq_refl eq_refl eq_refl).
Defined.

Lemma finish_non_object_witness :
  let w := Example.world_with {[ Batch.CONFIG_FILE := File "{}" ]} in
  Py.truthy (JArray [JInt 1]) = true /\
  (forall u, JArray [JInt 1] <> JObject u) /\
  Batch.finish (JObject []) (JArray [JInt 1]) w = (Raise (AttributeError "list" "get"), w).
Proof.
  assert (forall u, JArray [JInt 1] <> JObject u) as Hobject by discriminate.
  split_and!; [reflexivity | exact Hobject |].
  exact (finish_non_object (JObject []) (JArray [JInt 1])
           (Example.world_with {[ Batch.CONFIG_FILE := File "{}" ]}) eq_refl Hobject).
Defined.

End FurtherExamples.

Section SampleExamples.
#[local] Existing Instance Sample.crlf_env.

Lemma holds_metadata_crlf :
  holds (stored Example.metadata_text) Example.metadata_text Example.metadata_document.
Proof. split_and!; vm_compute; reflexivity. Qed.

Lemma holds_list : holds (stored "[1]") "[1]" (JArray [JInt 1]).
Proof. split_and!; vm_compute; reflexivity. Qed.

Lemma read_whole_document_witness :
  let w := stored Example.metadata_text in
  let listed := stored "[1]" in
  let as_digest := {| Gateway.section := Some "";
                   Gateway.response_format := Gateway.MARKDOWN |} in
  let as_json := {| Gateway.section := None;
                     Gateway.response_format := Gateway.JSON |} in
  holds w Example.metadata_text Example.metadata_document /\
  holds listed "[1]" (JArray [JInt 1]) /\
  (Gateway.section as_digest = None \/ Gateway.section as_digest = Some "") /\
  (Gateway.section as_json = None \/ Gateway.section as_json = Some "") /\
  Gateway.roi_config_read as_digest w =
  (Ok ("# ROI Config" +:+ nl +:+ "Version: 2.1.0" +:+ nl +:+ Example.metadata_text),
   hashed (read w)) /\
  Gateway.roi_config_read as_digest listed =
  (Ok "Error: 'list' object has no attribute 'get'", hashed (read listed)) /\
  Gateway.roi_config_read as_json listed =
  (Ok (json_dumps (JObject [("file_hash", JString (digest "[1]"));
                            ("data", JArray [JInt 1])])),
   hashed (read listed)).
Proof.
  split_and!; [exact holds_metadata_crlf | exact holds_list | now right | now left | | |].
  - refine (eq_trans
              (read_whole_document
                 {| Gateway.section := Some ""; Gateway.response_format := Gateway.MARKDOWN |}
                 (stored Example.metadata_text) Example.metadata_text
                 Example.metadata_document holds_metadata_crlf (or_intror eq_refl)) _).
    vm_compute. reflexivity.
  - exact (read_whole_document
             {| Gateway.section := Some ""; Gateway.response_format := Gateway.MARKDOWN |}
             (stored "[1]") "[1]" (JArray [JInt 1]) holds_list (or_intror eq_refl)).
  - exact (read_whole_document
             {| Gateway.section := None; Gateway.response_format := Gateway.JSON |}
             (stored "[1]") "[1]" (JArray [JInt 1]) holds_list (or_introl eq_refl)).
Defined.

(** C6 fails on every run, by the slip in the prompt template.  Here the
    file holds a document, the client can be made, and the API would answer
    with a well-formed update in a JSON fence, which parses to an object;
    handed that object, the lines that follow the request would set the
    version to 2.1.1, stamp [lastUpdated], write the file and return 0.  But
    the run never sends the request: formatting the prompt raises
    [KeyError] on the braces of its JSON sample, so the run ends with
    status 1 after four lines of output and the file is as it was. *)
Lemma run_stops_before_request :
  let w := Example.world_with {[ Batch.CONFIG_FILE := File Example.metadata_text ]} in
  let run := Batch.main w in
  let rest := Batch.finish Example.metadata_document Sample.patch_update w in
  let written :=
    JObject [("version", JString "2.1.1");
             ("lastUpdated", JString "2024-06-01T12:00:00Z");
             ("gpuTypes", JObject [("H100", JObject [("price", JInt 30000)])])] in
  files w !! Batch.CONFIG_FILE = Some (File Example.metadata_text) /\
  json_loads Example.metadata_text = Ok Example.metadata_document /\
  Anthropic_init = None /\
  (forall prompt, messages_create prompt = Ok Sample.patch_response) /\
  Batch.parse_response Sample.patch_response w = (Ok Sample.patch_update, w) /\
  rest.1 = Ok 0 /\
  files rest.2 !! Batch.CONFIG_FILE = Some (File (encode (json_dumps written))) /\
  run.1 = Raise (KeyError (nl +:+ "  " +:+ dq +:+ "version_increment" +:+ dq)) /\
  Batch.exit_status run.1 = 1 /\
  files run.2 = files w /\
  stdout run.2 =
    ["=== Weekly ROI Calculator Update ===";
     "Date: 2024-06-01 12:00:00";
     "Current version: 2.1.0";
     "Fetching updates from Claude API..."].
Proof.
  split_and!; vm_compute; reflexivity.
Qed.

Lemma apply_non_object_payload_witness :
  let params := {| Gateway.updates_json := "[1]";
                   Gateway.user_confirmed := true;
                   Gateway.create_backup := true |} in
  let w := stored Example.metadata_text in
  Gateway.user_confirmed params = true /\
  json_loads (Gateway.updates_json params) = Ok (JArray [JInt 1]) /\
  (forall u, JArray [JInt 1] <> JObject u) /\
  holds w Example.metadata_text Example.metadata_document /\
  Gateway.roi_config_apply params w =
  (Ok "Error: 'list' object has no attribute 'get'", read w).
Proof.
  assert (forall u, JArray [JInt 1] <> JObject u) as Hobject by discriminate.
  split_and!; [reflexivity | reflexivity | exact Hobject | exact holds_metadata_crlf |].
  exact (apply_non_object_payload
           {| Gateway.updates_json := "[1]";
              Gateway.user_confirmed := true;
              Gateway.create_backup := true |}
           (stored Example.metadata_text) Example.metadata_text _ (JArray [JInt 1])
           eq_refl eq_refl Hobject holds_metadata_crlf).
Defined.

Lemma write_then_read_witness :
  let w := stored "{}" in
  let w' := (Gateway._write_config Example.metadata_document false w).2 in
  Gateway._write_config Example.metadata_document false w
  = (Ok "Config saved. Backup: None", w') /\
  (os_linesep = nl \/ os_linesep = cr +:+ nl) /\
  Sys.utf8_valid (json_dumps Example.metadata_document) = true /\
  all_chars (fun c => negb (Ascii.eqb c (ascii_of_nat 13)))
    (json_dumps Example.metadata_document) = true /\
  json_loads (json_dumps Example.metadata_document) = Ok Example.metadata_document /\
  files w' !! ALLOWED_CONFIG_FILE <> Some (File (json_dumps Example.metadata_document)) /\
  Gateway._read_config w' = (Ok Example.metadata_document, read w').
Proof.
  intros w w'.
  assert (files w' !! ALLOWED_CONFIG_FILE
          <> Some (File (json_dumps Example.metadata_document))) as Hcrlf
    by (vm_compute; discriminate).
  split_and!; [reflexivity | now right | reflexivity | reflexivity | reflexivity
              | exact Hcrlf |].
  exact (write_then_read Example.metadata_document false w w'
           "Config saved. Backup: None" eq_refl (or_intror eq_refl) eq_refl eq_refl eq_refl).
Defined.

End SampleExamples.
